(** * CHIP-8 interpreter (chip8.py): a shallow embedding and its properties

    The interpreter of [src/chip8.py] is embedded as pure functions over an
    explicit machine state.  Python integers are [Z]; a [bytearray] is a
    [list Z] whose stores check the range 0..255 ([ValueError]) and whose
    indexing checks the bounds ([IndexError]); exceptions are the [Raise]
    results of a small error monad. *)

From Stdlib Require Import ZArith Lia List Bool QArith Qround Strings.Byte.
From stdpp Require Import base list.

Local Open Scope Z_scope.

(** Let [lia] reason about division and remainder by constants. *)
Ltac Zify.zify_post_hook ::= Z.to_euclidean_division_equations.

(** ** Python exceptions and the error monad *)

Inductive exn : Type :=
| IndexError
| ValueError
| TypeError
| AssertionError.

Inductive result (A : Type) : Type :=
| Ok (a : A)
| Raise (e : exn).

Arguments Ok {A} a.
Arguments Raise {A} e.

Definition bind {A B : Type} (m : result A) (k : A -> result B) : result B :=
  match m with
  | Ok a => k a
  | Raise e => Raise e
  end.

Notation "'let*' x ':=' m 'in' k" := (bind m (fun x => k))
  (at level 10, x name, m at level 100, k at level 200).
Notation "'let*' ' p ':=' m 'in' k" :=
  (bind m (fun x => match x with p => k end))
  (at level 10, p pattern, m at level 100, k at level 200).

(** ** Python sequences *)

Section PySeq.
Context {A : Type}.

(** [l[i]]: a negative index counts from the end, an index out of range
    raises [IndexError]. *)
Definition py_index (l : list A) (i : Z) : result nat :=
  let len := Z.of_nat (length l) in
  let j := if i <? 0 then i + len else i in
  if (j <? 0) || (len <=? j) then Raise IndexError else Ok (Z.to_nat j).

Definition getitem (l : list A) (i : Z) : result A :=
  let* j := py_index l i in
  match l !! j with
  | Some a => Ok a
  | None => Raise IndexError
  end.

(** [l[i] = a] *)
Definition setitem (l : list A) (i : Z) (a : A) : result (list A) :=
  let* j := py_index l i in
  Ok (<[j := a]> l).

(** [l[a:b]]: both ends are clipped to the sequence, never an error. *)
Definition slice_bound (l : list A) (i : Z) : Z :=
  let len := Z.of_nat (length l) in
  if i <? 0 then Z.max (i + len) 0 else Z.min i len.

Definition py_slice (l : list A) (a b : Z) : list A :=
  let a' := slice_bound l a in
  let b' := slice_bound l b in
  take (Z.to_nat (b' - a')) (drop (Z.to_nat a') l).
End PySeq.

(** [b[i] = v] on a [bytearray]: the index is checked first, then the value
    must be a byte. *)
Definition setbyte (b : list Z) (i v : Z) : result (list Z) :=
  let* j := py_index b i in
  if (0 <=? v) && (v <? 256) then Ok (<[j := v]> b) else Raise ValueError.

(** [int(q)] on a float truncates toward zero; floats are idealised as
    rationals. *)
Definition py_int (q : Q) : Z :=
  if Qle_bool 0 q then Qfloor q else Qceiling q.

(** ** Constants of the module *)

Definition fonts : list Z :=
  [ 0xF0; 0x90; 0x90; 0x90; 0xF0;
    0x20; 0x60; 0x20; 0x20; 0x70;
    0xF0; 0x10; 0xF0; 0x80; 0xF0;
    0xF0; 0x10; 0xF0; 0x10; 0xF0;
    0x90; 0x90; 0xF0; 0x10; 0x10;
    0xF0; 0x80; 0xF0; 0x10; 0xF0;
    0xF0; 0x80; 0xF0; 0x90; 0xF0;
    0xF0; 0x10; 0x20; 0x40; 0x40;
    0xF0; 0x90; 0xF0; 0x90; 0xF0;
    0xF0; 0x90; 0xF0; 0x10; 0xF0;
    0xF0; 0x90; 0xF0; 0x90; 0x90;
    0xE0; 0x90; 0xE0; 0x90; 0xE0;
    0xF0; 0x80; 0x80; 0x80; 0xF0;
    0xE0; 0x90; 0x90; 0x90; 0xE0;
    0xF0; 0x80; 0xF0; 0x80; 0xF0;
    0xF0; 0x80; 0xF0; 0x80; 0x80 ].

Definition XXX : Z := 64.
Definition YYY : Z := 32.

(** ** class UI: the pixel buffer and the keyboard

    The pygame window is not modelled; [flips] counts the calls of
    [update]. *)

Record UI : Type := mkUI {
  buffer : list (list bool);
  keyboard : list bool;
  flips : nat
}.

Definition clear_screen (u : UI) : UI :=
  mkUI (replicate (Z.to_nat XXX) (replicate (Z.to_nat YYY) false))
       (keyboard u) (flips u).

Definition ui_init : UI :=
  clear_screen (mkUI [] (replicate 16 false) 0).

Definition update (u : UI) : UI :=
  mkUI (buffer u) (keyboard u) (S (flips u)).

(** [draw_pixel] flips one pixel and returns its previous state. *)
Definition draw_pixel (u : UI) (x y : Z) : result (UI * bool) :=
  let* col := getitem (buffer u) x in
  let* old := getitem col y in
  let new := negb old in
  let* col' := setitem col y new in
  let* buffer' := setitem (buffer u) x col' in
  Ok (mkUI buffer' (keyboard u) (flips u), old).

(** ** class Chip8 *)

(** What the interpreter prints. *)
Inductive line : Type :=
| unkown_opcode (opcode : Z)
| load_rom_info (length : Z).

Record Chip8 : Type := mkChip8 {
  n : Z;
  ui : UI;
  pc : Z;
  opcode : Z;
  I : Z;
  V : list Z;
  stack : list Z;
  memory : list Z;
  delay_timer : Z * Q;
  sound_timer : Z;
  stdout : list line
}.

Definition set_n (v : Z) (c : Chip8) : Chip8 :=
  mkChip8 v (ui c) (pc c) (opcode c) (I c) (V c) (stack c) (memory c)
          (delay_timer c) (sound_timer c) (stdout c).
Definition set_ui (v : UI) (c : Chip8) : Chip8 :=
  mkChip8 (n c) v (pc c) (opcode c) (I c) (V c) (stack c) (memory c)
          (delay_timer c) (sound_timer c) (stdout c).
Definition set_pc (v : Z) (c : Chip8) : Chip8 :=
  mkChip8 (n c) (ui c) v (opcode c) (I c) (V c) (stack c) (memory c)
          (delay_timer c) (sound_timer c) (stdout c).
Definition set_opcode (v : Z) (c : Chip8) : Chip8 :=
  mkChip8 (n c) (ui c) (pc c) v (I c) (V c) (stack c) (memory c)
          (delay_timer c) (sound_timer c) (stdout c).
Definition set_I (v : Z) (c : Chip8) : Chip8 :=
  mkChip8 (n c) (ui c) (pc c) (opcode c) v (V c) (stack c) (memory c)
          (delay_timer c) (sound_timer c) (stdout c).
Definition set_V (v : list Z) (c : Chip8) : Chip8 :=
  mkChip8 (n c) (ui c) (pc c) (opcode c) (I c) v (stack c) (memory c)
          (delay_timer c) (sound_timer c) (stdout c).
Definition set_stack (v : list Z) (c : Chip8) : Chip8 :=
  mkChip8 (n c) (ui c) (pc c) (opcode c) (I c) (V c) v (memory c)
          (delay_timer c) (sound_timer c) (stdout c).
Definition set_memory (v : list Z) (c : Chip8) : Chip8 :=
  mkChip8 (n c) (ui c) (pc c) (opcode c) (I c) (V c) (stack c) v
          (delay_timer c) (sound_timer c) (stdout c).
Definition set_delay_timer (v : Z * Q) (c : Chip8) : Chip8 :=
  mkChip8 (n c) (ui c) (pc c) (opcode c) (I c) (V c) (stack c) (memory c)
          v (sound_timer c) (stdout c).
Definition print (l : line) (c : Chip8) : Chip8 :=
  mkChip8 (n c) (ui c) (pc c) (opcode c) (I c) (V c) (stack c) (memory c)
          (delay_timer c) (sound_timer c) (stdout c ++ [l]).

Definition log_error (op : Z) (c : Chip8) : Chip8 := print (unkown_opcode op) c.
Definition log_info (len : Z) (c : Chip8) : Chip8 := print (load_rom_info len) c.

(** [Chip8.__init__]: zeroed registers and memory, the font set copied to
    the bottom of the memory. *)
Definition chip8_init (u : UI) : Chip8 :=
  mkChip8 0 u 0x200 0 0 (replicate 16 0) []
          (fonts ++ replicate (4096 - length fonts) 0)
          (0, 0%Q) 0 [].

(** [Chip8.load_rom], from the bytes read from the file. *)
Fixpoint load_bytes (data : list byte) (mem : list Z) (addr : Z) : result (list Z) :=
  match data with
  | [] => Ok mem
  | b :: data' =>
      let* mem' := setbyte mem addr (Z.of_N (Byte.to_N b)) in
      load_bytes data' mem' (addr + 1)
  end.

Definition load_rom (data : list byte) (c : Chip8) : result Chip8 :=
  let length := Z.of_nat (length data) in
  if Z.of_nat (List.length (memory c)) - pc c >? length then
    let* mem' := load_bytes data (memory c) (pc c) in
    Ok (log_info length (set_memory mem' c))
  else Raise AssertionError.

(** ** Chip8.emulate_cycle *)

(** What one cycle takes from outside: the value [randint(0, 0xFF)] returns
    and the clock [time.time()]. *)
Record Env : Type := mkEnv {
  randint : Z;
  time : Q
}.

(** The inner loop of the draw opcode: the eight bits of one sprite row,
    most significant first. *)
Fixpoint draw_line (k : nat) (u : UI) (x y line : Z) (erase : bool)
  : result (UI * bool) :=
  match k with
  | O => Ok (u, erase)
  | S k' =>
      let* '(u', erase') :=
        (if Z.land (Z.shiftr line 7) 0x1 =? 0 then Ok (u, erase)
         else
           let* '(u', old) := draw_pixel u (x mod XXX) (y mod YYY) in
           Ok (u', erase || old)) in
      draw_line k' u' (x + 1) y (Z.shiftl line 1) erase'
  end.

(** The outer loop: one sprite row per byte of [memory[I: I + height]]. *)
Fixpoint draw_lines (lines : list Z) (u : UI) (V : list Z) (X y : Z)
    (erase : bool) : result (UI * bool) :=
  match lines with
  | [] => Ok (u, erase)
  | line :: lines' =>
      let* x := getitem V X in
      let* '(u', erase') := draw_line 8 u x y line erase in
      draw_lines lines' u' V X (y + 1) erase'
  end.

(** [for i in range(X + 1): memory[I + i] = V[i]] *)
Fixpoint reg_dump (k : nat) (i : Z) (V memory : list Z) (I : Z)
  : result (list Z) :=
  match k with
  | O => Ok memory
  | S k' =>
      let* v := getitem V i in
      let* memory' := setbyte memory (I + i) v in
      reg_dump k' (i + 1) V memory' I
  end.

(** [for i in range(X + 1): V[i] = memory[I + i]] *)
Fixpoint reg_load (k : nat) (i : Z) (V memory : list Z) (I : Z)
  : result (list Z) :=
  match k with
  | O => Ok V
  | S k' =>
      let* v := getitem memory (I + i) in
      let* V' := setbyte V i v in
      reg_load k' (i + 1) V' memory I
  end.

(** [self.stack.pop()] takes the last element. *)
Definition stack_pop (st : list Z) : result (Z * list Z) :=
  match rev st with
  | [] => Raise IndexError
  | top :: rest => Ok (top, rev rest)
  end.

(** The family 0x8: register-to-register operations. *)
Definition alu (X Y D F opcode : Z) (c : Chip8) : result Chip8 :=
  let V := V c in
  if D =? 0x0 then
    let* vy := getitem V Y in
    let* V := setbyte V X vy in
    Ok (set_V V c)
  else if D =? 0x1 then
    let* vx := getitem V X in
    let* vy := getitem V Y in
    let* V := setbyte V X (Z.lor vx vy) in
    Ok (set_V V c)
  else if D =? 0x2 then
    let* vx := getitem V X in
    let* vy := getitem V Y in
    let* V := setbyte V X (Z.land vx vy) in
    Ok (set_V V c)
  else if D =? 0x3 then
    let* vx := getitem V X in
    let* vy := getitem V Y in
    let* V := setbyte V X (Z.lxor vx vy) in
    Ok (set_V V c)
  else if D =? 0x4 then
    let* vx := getitem V X in
    let* vy := getitem V Y in
    if vx + vy >? 0xFF then
      let* V := setbyte V X (Z.land (vx + vy) 0xFF) in
      let* V := setbyte V F 1 in
      Ok (set_V V c)
    else
      let* V := setbyte V X (vx + vy) in
      let* V := setbyte V F 0 in
      Ok (set_V V c)
  else if D =? 0x5 then
    let* vx := getitem V X in
    let* vy := getitem V Y in
    if vx <? vy then
      let* V := setbyte V X (vy - vx) in
      let* V := setbyte V F 0 in
      Ok (set_V V c)
    else
      let* V := setbyte V X (vx - vy) in
      let* V := setbyte V F 1 in
      Ok (set_V V c)
  else if D =? 0x6 then
    let* vx := getitem V X in
    let* V := setbyte V F (Z.land vx 0x1) in
    let* vy := getitem V Y in
    let* V := setbyte V X (Z.shiftr vy 1) in
    Ok (set_V V c)
  else if D =? 0x7 then
    let* vy := getitem V Y in
    let* vx := getitem V X in
    if vy >? vx then
      let* V := setbyte V X (vy - vx) in
      let* V := setbyte V F 1 in
      Ok (set_V V c)
    else
      let* V := setbyte V X (vx - vy) in
      let* V := setbyte V F 0 in
      Ok (set_V V c)
  else if D =? 0xE then
    let* vx := getitem V X in
    let* V := setbyte V F (Z.land (Z.shiftr vx 7) 0x1) in
    let* vx := getitem V X in
    let* V := setbyte V X (Z.land (Z.shiftl vx 1) 0xFF) in
    Ok (set_V V c)
  else Ok (log_error opcode c).

(** The family 0xF: timers, keys and memory. *)
Definition misc (env : Env) (X YD F opcode : Z) (c : Chip8) : result Chip8 :=
  let V := V c in
  let I := I c in
  let memory := memory c in
  if YD =? 0x07 then
    let '(value, start) := delay_timer c in
    let current := py_int (inject_Z value - (time env - start) * 60)%Q in
    let* V := setbyte V X (Z.max current 0) in
    Ok (set_V V c)
  else if YD =? 0x0A then
    (* wait_key_event is declared with a parameter the call does not pass *)
    Raise TypeError
  else if YD =? 0x15 then
    let* vx := getitem V X in
    Ok (set_delay_timer (vx, time env) c)
  else if YD =? 0x18 then
    Ok c
  else if YD =? 0x1E then
    let* vx := getitem V X in
    let* V := setbyte V F (if I + vx >? 0xFFF then 1 else 0) in
    let* vx := getitem V X in
    Ok (set_I (Z.land (vx + I) 0xFFFF) (set_V V c))
  else if YD =? 0x29 then
    let* vx := getitem V X in
    Ok (set_I (vx * 0x5) c)
  else if YD =? 0x33 then
    let* vx := getitem V X in
    let* memory := setbyte memory I (vx / 100) in
    let* memory := setbyte memory (I + 1) (vx / 10 mod 10) in
    let* memory := setbyte memory (I + 2) (vx mod 100) in
    Ok (set_memory memory c)
  else if YD =? 0x55 then
    let* memory := reg_dump (Z.to_nat (X + 1)) 0 V memory I in
    Ok (set_memory memory c)
  else if YD =? 0x65 then
    let* V := reg_load (Z.to_nat (X + 1)) 0 V memory I in
    Ok (set_V V c)
  else Ok (log_error opcode c).

Definition emulate_cycle (env : Env) (c : Chip8) : result Chip8 :=
  let V := V c in
  let I := I c in
  let memory := memory c in
  let c := set_n (n c + 1) c in
  let* AX := getitem memory (pc c) in
  let* YD := getitem memory (pc c + 1) in
  let NN := YD in
  let A := Z.shiftr (Z.land AX 0xF0) 4 in
  let X := Z.land AX 0x0F in
  let Y := Z.shiftr (Z.land YD 0xF0) 4 in
  let D := Z.land YD 0x0F in
  let NNN := Z.lor (Z.shiftl X 8) YD in
  let F := 0xF in
  let opcode := Z.lor (Z.shiftl AX 8) YD in
  let c := set_opcode opcode c in
  let c := set_pc (pc c + 2) c in
  if A =? 0x0 then
    if NNN =? 0x0E0 then Ok (set_ui (clear_screen (ui c)) c)
    else if NNN =? 0x0EE then
      let* '(top, rest) := stack_pop (stack c) in
      Ok (set_pc top (set_stack rest c))
    else Ok (log_error opcode c)
  else if A =? 0x1 then Ok (set_pc NNN c)
  else if A =? 0x2 then Ok (set_pc NNN (set_stack (stack c ++ [pc c]) c))
  else if A =? 0x3 then
    let* vx := getitem V X in
    if vx =? NN then Ok (set_pc (pc c + 2) c) else Ok c
  else if A =? 0x4 then
    let* vx := getitem V X in
    if vx =? NN then Ok c else Ok (set_pc (pc c + 2) c)
  else if A =? 0x5 then
    let* vx := getitem V X in
    let* vy := getitem V Y in
    if vx =? vy then Ok (set_pc (pc c + 2) c) else Ok c
  else if A =? 0x9 then
    let* vx := getitem V X in
    let* vy := getitem V Y in
    if vx =? vy then Ok c else Ok (set_pc (pc c + 2) c)
  else if A =? 0x6 then
    let* V := setbyte V X NN in
    Ok (set_V V c)
  else if A =? 0x7 then
    let* vx := getitem V X in
    if vx + NN >? 0xFF then
      let* V := setbyte V X (Z.land (vx + NN) 0xFF) in
      Ok (set_V V c)
    else
      let* V := setbyte V X (vx + NN) in
      Ok (set_V V c)
  else if A =? 0x8 then alu X Y D F opcode c
  else if A =? 0xA then Ok (set_I NNN c)
  else if A =? 0xB then
    let* v0 := getitem V 0 in
    Ok (set_pc (Z.land (NNN + v0) 0xFFFF) c)
  else if A =? 0xC then
    let* V := setbyte V X (Z.land (randint env) NN) in
    Ok (set_V V c)
  else if A =? 0xD then
    let* y := getitem V Y in
    let height := D in
    let* '(u, erase) :=
      draw_lines (py_slice memory I (I + height)) (ui c) V X y false in
    let u := update u in
    let* V := setbyte V F (if erase then 1 else 0) in
    Ok (set_V V (set_ui u c))
  else if A =? 0xE then
    if YD =? 0x9E then
      let* vx := getitem V X in
      let* down := getitem (keyboard (ui c)) vx in
      if down then Ok (set_pc (pc c + 2) c) else Ok c
    else if YD =? 0xA1 then
      let* vx := getitem V X in
      let* down := getitem (keyboard (ui c)) vx in
      if down then Ok c else Ok (set_pc (pc c + 2) c)
    else Ok (log_error opcode c)
  else if A =? 0xF then misc env X YD F opcode c
  else Ok c.

(** * Vocabulary of the properties *)

(** ** Well-formed states *)

Definition byte_val (v : Z) : Prop := 0 <= v < 256.

(** The register file is a [bytearray(16)]. *)
Definition wf_V (V : list Z) : Prop :=
  length V = 16%nat /\ Forall byte_val V.

Definition wf_Vb (V : list Z) : bool :=
  (length V =? 16)%nat && forallb (fun v => (0 <=? v) && (v <? 256)) V.

(** The buffer has 64 columns of 32 pixels. *)
Definition wf_ui (u : UI) : Prop :=
  length (buffer u) = 64%nat /\
  Forall (fun col => length col = 32%nat) (buffer u).

Definition on_screen (p : Z * Z) : Prop := 0 <= p.1 < 64 /\ 0 <= p.2 < 32.

(** ** Fetch and decode *)

(** The two bytes at the program counter. *)
Definition fetched (c : Chip8) (AX YD : Z) : Prop :=
  getitem (memory c) (pc c) = Ok AX /\ getitem (memory c) (pc c + 1) = Ok YD.

(** The instruction word [AX << 8 | YD]. *)
Definition instr (AX YD : Z) : Z := Z.lor (Z.shiftl AX 8) YD.

(** The state when the body of an opcode starts: counter, opcode and
    program counter already updated. *)
Definition advance (AX YD : Z) (c : Chip8) : Chip8 :=
  set_pc (pc c + 2) (set_opcode (instr AX YD) (set_n (n c + 1) c)).

(** The built-in glyphs start at address 0 of the memory. *)
Definition glyph_base : Z := 0.

(** ** The display *)

(** The state of the pixel at column [x], row [y]. *)
Definition pixel (u : UI) (x y : Z) : bool :=
  match getitem (buffer u) x with
  | Ok col => match getitem col y with
              | Ok b => b
              | Raise _ => false
              end
  | Raise _ => false
  end.

(** A sequence of toggles, in order; [erase] accumulates what they
    report. *)
Fixpoint toggle_all (ps : list (Z * Z)) (u : UI) (erase : bool)
  : result (UI * bool) :=
  match ps with
  | [] => Ok (u, erase)
  | p :: ps' =>
      let* '(u', old) := draw_pixel u p.1 p.2 in
      toggle_all ps' u' (erase || old)
  end.

(** The pixels one sprite row toggles: column [col] of the row is bit
    [7 - col] of the byte, and lands at [(x + col) mod 64, y mod 32]. *)
Definition row_pixels (line x y : Z) : list (Z * Z) :=
  (fun col => ((x + col) mod XXX, y mod YYY)) <$>
  filter (fun col => Z.testbit line (7 - col) = true) (seqZ 0 8).

(** The pixels a sprite toggles, row after row from [y] downwards. *)
Fixpoint sprite_pixels (rows : list Z) (x y : Z) : list (Z * Z) :=
  match rows with
  | [] => []
  | line :: rows' => row_pixels line x y ++ sprite_pixels rows' x (y + 1)
  end.

(** The pixels that are set, column by column. *)
Definition lit_pixels (u : UI) : list (Z * Z) :=
  List.filter (fun p => pixel u p.1 p.2)
              (flat_map (fun x => map (fun y => (x, y)) (seqZ 0 YYY))
                        (seqZ 0 XXX)).

(** ** Observations *)

(** Any number of cycles. *)
Fixpoint cycles (k : nat) (env : Env) (c : Chip8) : result Chip8 :=
  match k with
  | O => Ok c
  | S k' => let* c' := emulate_cycle env c in cycles k' env c'
  end.

(** The value of a register after one cycle. *)
Definition reg_after (env : Env) (c : Chip8) (X : Z) : result Z :=
  let* c' := emulate_cycle env c in getitem (V c') X.

(** Three memory cells after one cycle. *)
Definition cells_after (env : Env) (c : Chip8) (addr : Z) : result (list Z) :=
  let* c' := emulate_cycle env c in Ok (py_slice (memory c') addr (addr + 3)).

Definition sound_after (env : Env) (c : Chip8) : result Z :=
  let* c' := emulate_cycle env c in Ok (sound_timer c').

Definition I_after (env : Env) (c : Chip8) : result Z :=
  let* c' := emulate_cycle env c in Ok (I c').

Definition pc_after (env : Env) (c : Chip8) : result Z :=
  let* c' := emulate_cycle env c in Ok (pc c').

Definition stdout_after (env : Env) (c : Chip8) : result (list line) :=
  let* c' := emulate_cycle env c in Ok (stdout c').

(** What a test of the display observes after [k] cycles: the pixels that
    are set and the flag register. *)
Definition screen_after (k : nat) (env : Env) (c : Chip8)
  : result (list (Z * Z) * result Z) :=
  let* c' := cycles k env c in Ok (lit_pixels (ui c'), getitem (V c') 0xF).

(** ** Concrete machines *)

Definition env0 : Env := mkEnv 0 0%Q.

(** A fresh interpreter with a program image loaded, as [main] builds it. *)
Definition boot (rom : list byte) : Chip8 :=
  match load_rom rom (chip8_init ui_init) with
  | Ok c => c
  | Raise _ => chip8_init ui_init
  end.

Definition with_regs (vals : list (nat * Z)) (c : Chip8) : Chip8 :=
  set_V (foldr (fun iv W => <[iv.1 := iv.2]> W) (V c) vals) c.

Definition bcd_machine : Chip8 :=
  set_I 0x300 (with_regs [(0%nat, 123)] (boot [xf0; x33])).

(** [8XYD] with X = 0 and Y = 1, V0 = a and V1 = b. *)
Definition alu_machine (D : byte) (a b : Z) : Chip8 :=
  with_regs [(0%nat, a); (1%nat, b)] (boot [x80; D]).

(** [8116]: shift right with the same source and destination, V1 = b. *)
Definition shr_same_machine (b : Z) : Chip8 :=
  with_regs [(1%nat, b)] (boot [x81; x16]).

(** [8F04]: add with the flag register as destination, VF = 3, V0 = 4. *)
Definition add_flag_machine : Chip8 :=
  with_regs [(15%nat, 3); (0%nat, 4)] (boot [x8f; x04]).

(** [80F6]: shift right with the flag register as source,
    VF = 0xB6, V0 = 1. *)
Definition shr_flag_machine : Chip8 :=
  with_regs [(15%nat, 0xB6); (0%nat, 1)] (boot [x80; xf6]).

(** [F018] with V0 = 5. *)
Definition sound_machine : Chip8 :=
  with_regs [(0%nat, 5)] (boot [xf0; x18]).

(** [F029] with V0 = a. *)
Definition glyph_machine (a : Z) : Chip8 :=
  with_regs [(0%nat, a)] (boot [xf0; x29]).

(** [5017] and [9013]: skips with a low nibble other than 0,
    V0 = a and V1 = b. *)
Definition skip_machine (AX YD : byte) (a b : Z) : Chip8 :=
  with_regs [(0%nat, a); (1%nat, b)] (boot [AX; YD]).

(** [D001] twice, the sprite row 0xFF at I = 0x204, V0 = 0, on a cleared
    display. *)
Definition draw_machine : Chip8 :=
  set_I 0x204 (boot [xd0; x01; xd0; x01; xff]).

(** ** The machine invariant *)

(** What [__init__] establishes and every cycle keeps: sixteen byte
    registers, 4096 bytes of memory, a 64 x 32 display, sixteen keys, and an
    address register, a program counter and return addresses of 16 bits. *)
Definition wf_state (c : Chip8) : Prop :=
  wf_V (V c) /\
  length (memory c) = 4096%nat /\ Forall byte_val (memory c) /\
  wf_ui (ui c) /\ length (keyboard (ui c)) = 16%nat /\
  0 <= I c <= 0xFFFF /\ 0 <= pc c <= 0xFFFF /\
  Forall (fun a => 0 <= a <= 0xFFFF) (stack c).

Definition bytesb (l : list Z) : bool :=
  forallb (fun v => (0 <=? v) && (v <? 256)) l.

Definition wf_stateb (c : Chip8) : bool :=
  wf_Vb (V c) &&
  (length (memory c) =? 4096)%nat && bytesb (memory c) &&
  (length (buffer (ui c)) =? 64)%nat &&
  forallb (fun col => (length col =? 32)%nat) (buffer (ui c)) &&
  (length (keyboard (ui c)) =? 16)%nat &&
  (0 <=? I c) && (I c <=? 0xFFFF) && (0 <=? pc c) && (pc c <=? 0xFFFF) &&
  forallb (fun a => (0 <=? a) && (a <=? 0xFFFF)) (stack c).

(** The instruction words [emulate_cycle] reports as unknown: the bytes
    [16 * A + X] and [YD] of families 0, 8, 0xE and 0xF outside their
    sub-opcodes. *)
Definition unknown_word (A X YD : Z) : Prop :=
  (A = 0 /\ 256 * X + YD <> 0x0E0 /\ 256 * X + YD <> 0x0EE) \/
  (A = 8 /\ (8 <= YD mod 16 <= 13 \/ YD mod 16 = 15)) \/
  (A = 14 /\ YD <> 0x9E /\ YD <> 0xA1) \/
  (A = 15 /\ YD <> 0x07 /\ YD <> 0x0A /\ YD <> 0x15 /\ YD <> 0x18 /\
   YD <> 0x1E /\ YD <> 0x29 /\ YD <> 0x33 /\ YD <> 0x55 /\ YD <> 0x65).

(** What the assignments 8XY0 to 8XY3 store into VX, from a = VX and
    b = VY. *)
Definition logic_op (D a b : Z) : Z :=
  if D =? 0 then b
  else if D =? 1 then Z.lor a b
  else if D =? 2 then Z.land a b
  else Z.lxor a b.

(** A [bytearray] of [n] cells. *)
Definition wf_bytes (n : nat) (l : list Z) : Prop :=
  length l = n /\ Forall byte_val l.

(** ** UI.handle_input_event *)

(** A pygame event: its type and, for a key event, its key. *)
Inductive event_type : Type :=
| KEYDOWN
| KEYUP
| OTHER.

Record event : Type := mkEvent {
  type : event_type;
  key : Z
}.

(** How a call ends: it returns a key index or None, [sys.exit(0)] raises
    SystemExit, or an index is out of range. *)
Inductive handled : Type :=
| Returned (u : UI) (i : option Z)
| SystemExit
| Raised (e : exn).

(** [keys.index(k)] for [k in keys], None otherwise. *)
Fixpoint keys_index (keys : list Z) (k : Z) : option Z :=
  match keys with
  | [] => None
  | k' :: keys' =>
      if k' =? k then Some 0
      else match keys_index keys' k with
           | Some i => Some (i + 1)
           | None => None
           end
  end.

Section Events.
(** The constants of pygame.locals the class refers to: the escape key and
    the tuple [self.keys] of the sixteen mapped keys. *)
Variable K_ESCAPE : Z.
Variable keys : list Z.

(** One pass over the events [pygame.event.get()] returned. *)
Fixpoint handle_input_event (events : list event) (u : UI) : handled :=
  match events with
  | [] => Returned u None
  | e :: events' =>
      match type e with
      | OTHER => handle_input_event events' u
      | t =>
          if key e =? K_ESCAPE then SystemExit
          else
            match keys_index keys (key e) with
            | Some i =>
                let down := match t with KEYDOWN => true | _ => false end in
                match setitem (keyboard u) i down with
                | Ok kb =>
                    let u' := mkUI (buffer u) kb (flips u) in
                    if down then Returned u' (Some i)
                    else handle_input_event events' u'
                | Raise x => Raised x
                end
            | None => handle_input_event events' u
            end
      end
  end.
End Events.

(** The values pygame gives K_ESCAPE and K_x, K_1, K_2, K_3, K_q, K_w, K_e,
    K_a, K_s, K_d, K_z, K_c, K_4, K_r, K_f, K_v: their ASCII codes. *)
Definition pygame_K_ESCAPE : Z := 27.
Definition pygame_keys : list Z :=
  [120; 49; 50; 51; 113; 119; 101; 97; 115; 100; 122; 99; 52; 114; 102; 118].

(** ** More concrete machines *)

(** A fresh interpreter with the image [rom] loaded and some registers
    set. *)
Definition machine (rom : list byte) (regs : list (nat * Z)) : Chip8 :=
  with_regs regs (boot rom).

(** The state one cycle leads to (the state itself when the cycle
    raises). *)
Definition after (env : Env) (c : Chip8) : Chip8 :=
  match emulate_cycle env c with
  | Ok c' => c'
  | Raise _ => c
  end.

(** [keyboard[i]] after a pass over the events, when the pass returns. *)
Definition key_after (r : handled) (i : Z) : result bool :=
  match r with
  | Returned u _ => getitem (keyboard u) i
  | _ => Raise IndexError
  end.

(** ** Runs *)

(** The cycles of a run, one after the other, each with what it takes from
    outside: [randint] and the clock are read afresh in every cycle. *)
Fixpoint emulate_cycles (envs : list Env) (c : Chip8) : result Chip8 :=
  match envs with
  | [] => Ok c
  | env :: envs' =>
      let* c' := emulate_cycle env c in emulate_cycles envs' c'
  end.

(** [C0FF], [C1FF], [00E0]: two random numbers, then a clear screen. *)
Definition random_machine : Chip8 :=
  boot [xc0; xff; xc1; xff; x00; xe0].

(** * Properties *)

(** ** Indexing and byte stores *)

Lemma py_index_nonneg {A} (l : list A) (i : Z) :
  0 <= i < Z.of_nat (length l) -> py_index l i = Ok (Z.to_nat i).
Proof.
  intros Hi. unfold py_index.
  destruct (Z.ltb_spec i 0); [lia|].
  destruct (Z.ltb_spec i 0); [lia|].
  destruct (Z.leb_spec (Z.of_nat (length l)) i); [lia|]. reflexivity.
Qed.

Lemma getitem_lookup {A} (l : list A) (i : Z) (a : A) :
  0 <= i -> l !! Z.to_nat i = Some a -> getitem l i = Ok a.
Proof.
  intros Hi Hl. unfold getitem.
  rewrite py_index_nonneg.
  - cbn. now rewrite Hl.
  - apply lookup_lt_Some in Hl. lia.
Qed.

Lemma getitem_Ok_inv {A} (l : list A) (i : Z) (a : A) :
  0 <= i -> getitem l i = Ok a -> l !! Z.to_nat i = Some a.
Proof.
  intros Hi. unfold getitem, py_index.
  destruct (Z.ltb_spec i 0); [lia|].
  destruct (_ || _); cbn; [discriminate|].
  destruct (l !! Z.to_nat i); congruence.
Qed.

Lemma setbyte_Ok (b : list Z) (i v : Z) :
  0 <= i < Z.of_nat (length b) -> byte_val v ->
  setbyte b i v = Ok (<[Z.to_nat i := v]> b).
Proof.
  intros Hi [Hv0 Hv1]. unfold setbyte.
  rewrite py_index_nonneg by assumption. cbn.
  destruct (Z.leb_spec 0 v); [|lia].
  destruct (Z.ltb_spec v 256); [|lia]. reflexivity.
Qed.

Lemma wf_V_lookup (V : list Z) (X a : Z) :
  wf_V V -> 0 <= X -> getitem V X = Ok a -> byte_val a.
Proof.
  intros [_ HV] HX Hg. apply getitem_Ok_inv in Hg; [|assumption].
  eapply Forall_lookup_1; eassumption.
Qed.

Lemma wf_V_insert (V : list Z) (i : nat) (v : Z) :
  wf_V V -> byte_val v -> wf_V (<[i := v]> V).
Proof.
  intros [Hlen HV] Hv. split.
  - now rewrite length_insert.
  - now apply Forall_insert.
Qed.

(** ** Fetch and decode *)

Lemma land_0F (h l : Z) :
  0 <= h -> 0 <= l < 16 -> Z.land (16 * h + l) 0x0F = l.
Proof.
  intros Hh Hl. change 0x0F with (Z.ones 4).
  rewrite Z.land_ones by lia. change (2 ^ 4) with 16. lia.
Qed.

Lemma land_F0_shiftr (h l : Z) :
  0 <= h < 16 -> 0 <= l < 16 -> Z.shiftr (Z.land (16 * h + l) 0xF0) 4 = h.
Proof.
  intros Hh Hl. rewrite Z.shiftr_land.
  change (Z.shiftr 0xF0 4) with (Z.ones 4).
  rewrite Z.land_ones, Z.shiftr_div_pow2 by lia. change (2 ^ 4) with 16. lia.
Qed.

Lemma emulate_cycle_family_8 env c AX YD :
  fetched c AX YD -> Z.shiftr (Z.land AX 0xF0) 4 = 8 ->
  emulate_cycle env c =
  alu (Z.land AX 0x0F) (Z.shiftr (Z.land YD 0xF0) 4) (Z.land YD 0x0F) 0xF
      (instr AX YD) (advance AX YD c).
Proof.
  intros [H1 H2] HA. unfold emulate_cycle.
  cbn [pc set_n]. rewrite H1. cbn [bind]. rewrite H2. cbn [bind].
  rewrite HA. reflexivity.
Qed.

Lemma emulate_cycle_family_F env c AX YD :
  fetched c AX YD -> Z.shiftr (Z.land AX 0xF0) 4 = 15 ->
  emulate_cycle env c =
  misc env (Z.land AX 0x0F) YD 0xF (instr AX YD) (advance AX YD c).
Proof.
  intros [H1 H2] HA. unfold emulate_cycle.
  cbn [pc set_n]. rewrite H1. cbn [bind]. rewrite H2. cbn [bind].
  rewrite HA. reflexivity.
Qed.

(** An instruction [8XYD], its fields decoded. *)
Lemma emulate_cycle_8XYD env c X Y D :
  0 <= X < 16 -> 0 <= Y < 16 -> 0 <= D < 16 ->
  fetched c (16 * 8 + X) (16 * Y + D) ->
  emulate_cycle env c =
  alu X Y D 0xF (instr (16 * 8 + X) (16 * Y + D))
      (advance (16 * 8 + X) (16 * Y + D) c).
Proof.
  intros HX HY HD Hf.
  rewrite (emulate_cycle_family_8 env c _ _ Hf) by (apply land_F0_shiftr; lia).
  rewrite (land_0F 8 X), (land_0F Y D), (land_F0_shiftr Y D) by lia.
  reflexivity.
Qed.

(** The common tail of the arithmetic opcodes: the result goes to [V[X]],
    then the flag to [V[F]]. *)
Lemma store_result_then_flag (c : Chip8) (V : list Z) (X res flag : Z) :
  wf_V V -> 0 <= X < 16 -> byte_val res -> byte_val flag ->
  (let* V1 := setbyte V X res in
   let* V2 := setbyte V1 0xF flag in
   Ok (set_V V2 c))
  = Ok (set_V (<[15%nat := flag]> (<[Z.to_nat X := res]> V)) c).
Proof.
  intros [Hlen HV] HX Hres Hflag.
  rewrite setbyte_Ok by (rewrite ?Hlen; lia || assumption). cbn [bind].
  rewrite setbyte_Ok by (rewrite ?length_insert, ?Hlen; lia || assumption).
  reflexivity.
Qed.

(** Reading the register file after the two stores. *)
Lemma read_flag_after (V : list Z) (i : nat) (res flag : Z) :
  wf_V V -> getitem (<[15%nat := flag]> (<[i := res]> V)) 0xF = Ok flag.
Proof.
  intros [Hlen _]. apply getitem_lookup; [lia|].
  apply list_lookup_insert_eq. rewrite length_insert, Hlen. lia.
Qed.

Lemma read_result_after (V : list Z) (X res flag : Z) :
  wf_V V -> 0 <= X < 15 ->
  getitem (<[15%nat := flag]> (<[Z.to_nat X := res]> V)) X = Ok res.
Proof.
  intros [Hlen _] HX. apply getitem_lookup; [lia|].
  rewrite list_lookup_insert_ne by lia.
  apply list_lookup_insert_eq. rewrite Hlen. lia.
Qed.

(** ** The arithmetic opcodes *)

Ltac alu_body :=
  unfold alu; cbn [Z.eqb Pos.eqb];
  cbn [V advance set_pc set_opcode set_n].

(** C7: subtract (8XY5).  With a = VX and b = VY before the cycle, the value
    stored into VX is b - a when a < b and a - b otherwise, and VF is then
    set to 0 when a < b and to 1 otherwise; every other part of the state is
    the one the fetch left. *)
Theorem sub_8XY5_stores_difference env c X Y a b :
  wf_V (V c) -> 0 <= X < 16 -> 0 <= Y < 16 ->
  fetched c (16 * 8 + X) (16 * Y + 5) ->
  getitem (V c) X = Ok a -> getitem (V c) Y = Ok b ->
  let res := if a <? b then b - a else a - b in
  let flag := if a <? b then 0 else 1 in
  let V' := <[15%nat := flag]> (<[Z.to_nat X := res]> (V c)) in
  emulate_cycle env c
    = Ok (set_V V' (advance (16 * 8 + X) (16 * Y + 5) c)) /\
  getitem V' 0xF = Ok flag /\
  (X <> 15 -> getitem V' X = Ok res).
Proof.
  intros Hwf HX HY Hf Ha Hb res flag V'.
  pose proof (wf_V_lookup _ _ _ Hwf (proj1 HX) Ha) as Ba.
  pose proof (wf_V_lookup _ _ _ Hwf (proj1 HY) Hb) as Bb.
  unfold byte_val in Ba, Bb.
  split; [|split].
  - rewrite (emulate_cycle_8XYD env c X Y 5) by lia || assumption.
    alu_body. rewrite Ha, Hb. cbn [bind].
    subst V' res flag. destruct (Z.ltb_spec a b);
      apply store_result_then_flag; unfold byte_val; lia || assumption.
  - apply read_flag_after, Hwf.
  - intros HX15. apply read_result_after; [assumption | lia].
Qed.

(** C6, amended: add (8XY4).  With a = VX and b = VY before the cycle, VF is
    left equal to 1 if a + b > 255 and to 0 otherwise, for every X and Y;
    VX is left equal to (a + b) mod 256 when X is not the flag register,
    whose sum is overwritten by the flag. *)
Theorem add_8XY4_sum_and_carry env c X Y a b :
  wf_V (V c) -> 0 <= X < 16 -> 0 <= Y < 16 ->
  fetched c (16 * 8 + X) (16 * Y + 4) ->
  getitem (V c) X = Ok a -> getitem (V c) Y = Ok b ->
  let flag := if a + b >? 255 then 1 else 0 in
  let V' := <[15%nat := flag]> (<[Z.to_nat X := (a + b) mod 256]> (V c)) in
  emulate_cycle env c
    = Ok (set_V V' (advance (16 * 8 + X) (16 * Y + 4) c)) /\
  getitem V' 0xF = Ok flag /\
  (X <> 15 -> getitem V' X = Ok ((a + b) mod 256)).
Proof.
  intros Hwf HX HY Hf Ha Hb flag V'.
  pose proof (wf_V_lookup _ _ _ Hwf (proj1 HX) Ha) as Ba.
  pose proof (wf_V_lookup _ _ _ Hwf (proj1 HY) Hb) as Bb.
  unfold byte_val in Ba, Bb.
  split; [|split].
  - rewrite (emulate_cycle_8XYD env c X Y 4) by lia || assumption.
    alu_body. rewrite Ha, Hb. cbn [bind].
    subst V' flag. change 0xFF with (Z.ones 8).
    rewrite Z.land_ones by lia. change (2 ^ 8) with 256.
    change (Z.ones 8) with 255.
    destruct (Z.gtb_spec (a + b) 255).
    + apply store_result_then_flag; unfold byte_val; lia || assumption.
    + replace ((a + b) mod 256) with (a + b) by lia.
      apply store_result_then_flag; unfold byte_val; lia || assumption.
  - apply read_flag_after, Hwf.
  - intros HX15. apply read_result_after; [assumption | lia].
Qed.

(** Reverse subtract (8XY7) as the code runs it.  With a = VX and b = VY
    before the cycle, VF is set to 1 when b > a and to 0 otherwise; the
    value stored into VX is b - a when b > a, but a - b otherwise, where the
    comment of the branch has VX = VY - VX. *)
Theorem subn_8XY7_stores_difference env c X Y a b :
  wf_V (V c) -> 0 <= X < 16 -> 0 <= Y < 16 ->
  fetched c (16 * 8 + X) (16 * Y + 7) ->
  getitem (V c) X = Ok a -> getitem (V c) Y = Ok b ->
  let res := if b >? a then b - a else a - b in
  let flag := if b >? a then 1 else 0 in
  let V' := <[15%nat := flag]> (<[Z.to_nat X := res]> (V c)) in
  emulate_cycle env c
    = Ok (set_V V' (advance (16 * 8 + X) (16 * Y + 7) c)) /\
  getitem V' 0xF = Ok flag /\
  (X <> 15 -> getitem V' X = Ok res).
Proof.
  intros Hwf HX HY Hf Ha Hb res flag V'.
  pose proof (wf_V_lookup _ _ _ Hwf (proj1 HX) Ha) as Ba.
  pose proof (wf_V_lookup _ _ _ Hwf (proj1 HY) Hb) as Bb.
  unfold byte_val in Ba, Bb.
  split; [|split].
  - rewrite (emulate_cycle_8XYD env c X Y 7) by lia || assumption.
    alu_body. rewrite Ha, Hb. cbn [bind].
    subst V' res flag. destruct (Z.gtb_spec b a);
      apply store_result_then_flag; unfold byte_val; lia || assumption.
  - apply read_flag_after, Hwf.
  - intros HX15. apply read_result_after; [assumption | lia].
Qed.

(** C8, amended: shift right (8XY6) when the source register VY is not the
    flag register.  With a = VX and b = VY before the cycle, VF receives the
    least significant bit of a and then VX receives b shifted right by one,
    whether X and Y differ or coincide; VX is left equal to b >> 1, and VF
    to the bit unless X is the flag register. *)
Theorem shr_8XY6_source_not_flag env c X Y a b :
  wf_V (V c) -> 0 <= X < 16 -> 0 <= Y < 15 ->
  fetched c (16 * 8 + X) (16 * Y + 6) ->
  getitem (V c) X = Ok a -> getitem (V c) Y = Ok b ->
  let V' := <[Z.to_nat X := Z.shiftr b 1]> (<[15%nat := Z.land a 1]> (V c)) in
  emulate_cycle env c
    = Ok (set_V V' (advance (16 * 8 + X) (16 * Y + 6) c)) /\
  getitem V' X = Ok (Z.shiftr b 1) /\
  (X <> 15 -> getitem V' 0xF = Ok (Z.land a 1)).
Proof.
  intros Hwf HX HY Hf Ha Hb V'.
  pose proof (wf_V_lookup _ _ _ Hwf (proj1 HX) Ha) as Ba.
  pose proof (wf_V_lookup _ _ _ Hwf (proj1 HY) Hb) as Bb.
  unfold byte_val in Ba, Bb. destruct Hwf as [Hlen HV].
  assert (Hbit : byte_val (Z.land a 1)).
  { change 1 with (Z.ones 1). rewrite Z.land_ones by lia.
    change (2 ^ 1) with 2. unfold byte_val. lia. }
  assert (Hshr : byte_val (Z.shiftr b 1)).
  { rewrite Z.shiftr_div_pow2 by lia. change (2 ^ 1) with 2.
    unfold byte_val. lia. }
  split; [|split].
  - rewrite (emulate_cycle_8XYD env c X Y 6) by lia || assumption.
    alu_body. rewrite Ha. cbn [bind].
    rewrite setbyte_Ok by (rewrite ?Hlen; lia || assumption). cbn [bind].
    rewrite (getitem_lookup _ Y b); [|lia|].
    + cbn [bind].
      rewrite setbyte_Ok
        by (rewrite ?length_insert, ?Hlen; lia || assumption).
      reflexivity.
    + rewrite list_lookup_insert_ne by lia.
      apply getitem_Ok_inv; [lia | assumption].
  - apply getitem_lookup; [lia|].
    apply list_lookup_insert_eq. rewrite length_insert, Hlen. lia.
  - intros HX15. subst V'. apply getitem_lookup; [lia|].
    rewrite list_lookup_insert_ne by lia.
    apply list_lookup_insert_eq. rewrite Hlen. lia.
Qed.

(** ** Conditional skips on two registers *)

Lemma emulate_cycle_family_5 env c AX YD vx vy :
  fetched c AX YD -> Z.shiftr (Z.land AX 0xF0) 4 = 5 ->
  getitem (V c) (Z.land AX 0x0F) = Ok vx ->
  getitem (V c) (Z.shiftr (Z.land YD 0xF0) 4) = Ok vy ->
  emulate_cycle env c =
  Ok (if vx =? vy then set_pc (pc c + 2 + 2) (advance AX YD c)
      else advance AX YD c).
Proof.
  intros [H1 H2] HA Hx Hy. unfold emulate_cycle.
  cbn [pc set_n]. rewrite H1. cbn [bind]. rewrite H2. cbn [bind].
  rewrite HA. cbn [Z.eqb Pos.eqb]. rewrite Hx. cbn [bind]. rewrite Hy.
  cbn [bind]. destruct (vx =? vy); reflexivity.
Qed.

Lemma emulate_cycle_family_9 env c AX YD vx vy :
  fetched c AX YD -> Z.shiftr (Z.land AX 0xF0) 4 = 9 ->
  getitem (V c) (Z.land AX 0x0F) = Ok vx ->
  getitem (V c) (Z.shiftr (Z.land YD 0xF0) 4) = Ok vy ->
  emulate_cycle env c =
  Ok (if vx =? vy then advance AX YD c
      else set_pc (pc c + 2 + 2) (advance AX YD c)).
Proof.
  intros [H1 H2] HA Hx Hy. unfold emulate_cycle.
  cbn [pc set_n]. rewrite H1. cbn [bind]. rewrite H2. cbn [bind].
  rewrite HA. cbn [Z.eqb Pos.eqb]. rewrite Hx. cbn [bind]. rewrite Hy.
  cbn [bind]. destruct (vx =? vy); reflexivity.
Qed.

(** C10: an instruction word whose high nibble is 5 (respectively 9), with
    any low nibble D, runs the register-to-register equality (respectively
    inequality) skip: the cycle succeeds, prints nothing, leaves the program
    counter at the old value plus 4 when the comparison holds and plus 2
    otherwise, and changes nothing else but the cycle counter and the
    recorded opcode. *)
Theorem skip_5XYD_9XYD_any_low_nibble env c A X Y D a b :
  A = 5 \/ A = 9 -> 0 <= X < 16 -> 0 <= Y < 16 -> 0 <= D < 16 ->
  fetched c (16 * A + X) (16 * Y + D) ->
  getitem (V c) X = Ok a -> getitem (V c) Y = Ok b ->
  let holds := if A =? 5 then a =? b else negb (a =? b) in
  exists c',
    emulate_cycle env c = Ok c' /\
    stdout c' = stdout c /\
    pc c' = pc c + (if holds then 4 else 2) /\
    c' = set_pc (pc c') (advance (16 * A + X) (16 * Y + D) c).
Proof.
  intros HA HX HY HD Hf Ha Hb holds.
  assert (HdX : Z.land (16 * A + X) 0x0F = X) by (apply land_0F; lia).
  assert (HdY : Z.shiftr (Z.land (16 * Y + D) 0xF0) 4 = Y)
    by (apply land_F0_shiftr; lia).
  assert (HdA : Z.shiftr (Z.land (16 * A + X) 0xF0) 4 = A)
    by (apply land_F0_shiftr; lia).
  destruct HA as [-> | ->].
  - rewrite (emulate_cycle_family_5 env c _ _ a b Hf HdA)
      by (rewrite ?HdX, ?HdY; assumption).
    subst holds. cbn [Z.eqb Pos.eqb].
    destruct (a =? b); eexists; (split; [reflexivity|]);
      cbn; (split; [reflexivity|]); (split; [lia | reflexivity]).
  - rewrite (emulate_cycle_family_9 env c _ _ a b Hf HdA)
      by (rewrite ?HdX, ?HdY; assumption).
    subst holds. cbn [Z.eqb Pos.eqb].
    destruct (a =? b); eexists; (split; [reflexivity|]);
      cbn; (split; [reflexivity|]); (split; [lia | reflexivity]).
Qed.

(** ** The family 0xF *)

Lemma emulate_cycle_FXNN env c X NN :
  0 <= X < 16 -> fetched c (16 * 15 + X) NN ->
  emulate_cycle env c =
  misc env X NN 0xF (instr (16 * 15 + X) NN) (advance (16 * 15 + X) NN c).
Proof.
  intros HX Hf.
  rewrite (emulate_cycle_family_F env c _ _ Hf) by (apply land_F0_shiftr; lia).
  rewrite (land_0F 15 X) by lia. reflexivity.
Qed.

Ltac misc_body :=
  unfold misc; cbn [Z.eqb Pos.eqb];
  cbn [V I memory advance set_pc set_opcode set_n].

(** The set-sound-timer opcode (FX18) as the code runs it: it is
    recognised and does nothing.  The cycle succeeds and only advances the
    cycle counter, the recorded opcode and the program counter; the sound
    timer, which the comment of the branch has set to VX, the registers and
    the output are unchanged. *)
Theorem sound_FX18_is_noop env c X :
  0 <= X < 16 -> fetched c (16 * 15 + X) 0x18 ->
  emulate_cycle env c = Ok (advance (16 * 15 + X) 0x18 c) /\
  sound_timer (advance (16 * 15 + X) 0x18 c) = sound_timer c /\
  V (advance (16 * 15 + X) 0x18 c) = V c /\
  stdout (advance (16 * 15 + X) 0x18 c) = stdout c.
Proof.
  intros HX Hf. split; [|repeat split].
  rewrite (emulate_cycle_FXNN env c X 0x18) by assumption.
  reflexivity.
Qed.

(** C5, amended: the glyph-address opcode (FX29) sets I to five times the
    whole value of VX, without masking; that is the glyph base plus five
    times the low nibble of VX exactly when VX is at most 0xF. *)
Theorem glyph_FX29_unmasked env c X a :
  wf_V (V c) -> 0 <= X < 16 -> fetched c (16 * 15 + X) 0x29 ->
  getitem (V c) X = Ok a ->
  emulate_cycle env c = Ok (set_I (a * 5) (advance (16 * 15 + X) 0x29 c)) /\
  (a * 5 = glyph_base + 5 * Z.land a 0xF <-> a <= 0xF).
Proof.
  intros Hwf HX Hf Ha.
  pose proof (wf_V_lookup _ _ _ Hwf (proj1 HX) Ha) as Ba.
  unfold byte_val in Ba. split.
  - rewrite (emulate_cycle_FXNN env c X 0x29) by assumption.
    misc_body. rewrite Ha. reflexivity.
  - change 0xF with (Z.ones 4). rewrite Z.land_ones by lia.
    change (2 ^ 4) with 16. change (Z.ones 4) with 15. unfold glyph_base. lia.
Qed.

Lemma wf_Vb_true (V : list Z) : wf_Vb V = true -> wf_V V.
Proof.
  unfold wf_Vb, wf_V. rewrite andb_true_iff, Nat.eqb_eq, forallb_forall.
  intros [Hlen HV]. split; [assumption|].
  apply Forall_forall. intros v Hv. apply list_elem_of_In, HV in Hv.
  unfold byte_val. lia.
Qed.

Ltac concrete :=
  lazymatch goal with
  | |- wf_V _ => apply wf_Vb_true; vm_compute; reflexivity
  | |- fetched _ _ _ => split; vm_compute; reflexivity
  | |- getitem _ _ = _ => vm_compute; reflexivity
  | |- _ =>
      first [ lia
            | vm_compute; first [reflexivity | intro; discriminate]
            | split; vm_compute; first [reflexivity | intro; discriminate] ]
  end.

(** ** Binary-coded decimal (FX33) *)

Lemma bcd_FX33_cells env c X v :
  wf_V (V c) -> 0 <= X < 16 -> fetched c (16 * 15 + X) 0x33 ->
  getitem (V c) X = Ok v ->
  0 <= I c -> I c + 2 < Z.of_nat (length (memory c)) ->
  emulate_cycle env c =
  Ok (set_memory
        (<[Z.to_nat (I c + 2) := v mod 100]>
           (<[Z.to_nat (I c + 1) := v / 10 mod 10]>
              (<[Z.to_nat (I c) := v / 100]> (memory c))))
        (advance (16 * 15 + X) 0x33 c)).
Proof.
  intros Hwf HX Hf Hv HI0 HI2.
  pose proof (wf_V_lookup _ _ _ Hwf (proj1 HX) Hv) as Bv.
  unfold byte_val in Bv.
  rewrite (emulate_cycle_FXNN env c X 0x33) by assumption.
  misc_body. rewrite Hv. cbn [bind].
  rewrite setbyte_Ok by (unfold byte_val; lia). cbn [bind].
  rewrite setbyte_Ok by (rewrite ?length_insert; unfold byte_val; lia).
  cbn [bind].
  rewrite setbyte_Ok by (rewrite ?length_insert; unfold byte_val; lia).
  reflexivity.
Qed.

(** C1: the BCD opcode (FX33) run with VX = 123 and I = 0x300 writes 1 to
    memory[I] and 2 to memory[I+1], but 23 (the value modulo 100) to
    memory[I+2], where the ones digit 3 belongs. *)
Theorem bcd_FX33_of_123_writes_23 :
  getitem (V bcd_machine) 0 = Ok 123 /\
  fetched bcd_machine 0xF0 0x33 /\
  cells_after env0 bcd_machine (I bcd_machine) = Ok [1; 2; 23].
Proof.
  assert (Hv : getitem (V bcd_machine) 0 = Ok 123) by concrete.
  assert (Hf : fetched bcd_machine 0xF0 0x33) by concrete.
  split; [assumption | split; [assumption|]].
  unfold cells_after.
  rewrite (bcd_FX33_cells env0 bcd_machine 0 123) by concrete.
  vm_compute. reflexivity.
Qed.

(** ** Loading a program image *)

Lemma load_bytes_Ok (data : list byte) :
  forall (mem : list Z) (addr : Z),
    0 <= addr ->
    addr + Z.of_nat (length data) <= Z.of_nat (length mem) ->
    exists mem', load_bytes data mem addr = Ok mem' /\ length mem' = length mem.
Proof.
  induction data as [|b data IH]; intros mem addr Haddr Hfit; cbn [load_bytes].
  - now exists mem.
  - cbn [length] in Hfit.
    rewrite setbyte_Ok.
    + cbn [bind].
      destruct (IH (<[Z.to_nat addr := Z.of_N (Byte.to_N b)]> mem) (addr + 1))
        as (mem' & Hload & Hlen); [lia | rewrite length_insert; lia |].
      exists mem'. split; [assumption|].
      now rewrite Hlen, length_insert.
    + lia.
    + pose proof (Byte.to_N_bounded b). unfold byte_val. lia.
Qed.

(** On a fresh interpreter the assertion of [load_rom] accepts an image
    exactly when it is shorter than 3584 bytes. *)
Lemma load_rom_fresh_accepts (u : UI) (data : list byte) :
  (exists c, load_rom data (chip8_init u) = Ok c) <->
  Z.of_nat (length data) < 4096 - 0x200.
Proof.
  assert (Hlen : length (memory (chip8_init u)) = 4096%nat) by reflexivity.
  unfold load_rom. rewrite Hlen. change (pc (chip8_init u)) with 512.
  destruct (Z.gtb_spec (Z.of_nat 4096 - 512) (Z.of_nat (length data))) as [Hlt|Hge].
  - split; [lia|]. intros _.
    destruct (load_bytes_Ok data (memory (chip8_init u)) 512)
      as (mem' & Hload & _); [lia | rewrite Hlen; lia |].
    rewrite Hload. cbn [bind]. eauto.
  - split; [|lia]. intros [c Hc]. discriminate.
Qed.

(** C2: on a fresh interpreter, an image of exactly 3584 bytes is rejected by
    the assertion of [load_rom], as one of 3585 bytes is; the longest image
    accepted has 3583 bytes and its last byte lands at address 0xFFE. *)
Theorem load_rom_rejects_3584_bytes :
  load_rom (repeat xff 3584) (chip8_init ui_init) = Raise AssertionError /\
  load_rom (repeat xff 3585) (chip8_init ui_init) = Raise AssertionError /\
  (let* c := load_rom (repeat xff 3583) (chip8_init ui_init) in
   Ok (py_slice (memory c) 0xFFD 0x1000)) = Ok [0xFF; 0xFF; 0].
Proof.
  split; [|split]; vm_compute; reflexivity.
Qed.

(** ** The opcodes on concrete machines *)

Lemma sub_8XY5_examples :
  reg_after env0 (alu_machine x15 0x05 0x0A) 0 = Ok 0x05 /\
  reg_after env0 (alu_machine x15 0x05 0x0A) 0xF = Ok 0 /\
  reg_after env0 (alu_machine x15 0x0A 0x05) 0 = Ok 0x05 /\
  reg_after env0 (alu_machine x15 0x0A 0x05) 0xF = Ok 1.
Proof.
  pose proof (sub_8XY5_stores_difference env0 (alu_machine x15 0x05 0x0A)
                0 1 0x05 0x0A ltac:(concrete) ltac:(concrete) ltac:(concrete)
                ltac:(concrete) ltac:(concrete) ltac:(concrete)) as H1.
  pose proof (sub_8XY5_stores_difference env0 (alu_machine x15 0x0A 0x05)
                0 1 0x0A 0x05 ltac:(concrete) ltac:(concrete) ltac:(concrete)
                ltac:(concrete) ltac:(concrete) ltac:(concrete)) as H2.
  cbv zeta in H1, H2.
  destruct H1 as (E1 & F1 & R1), H2 as (E2 & F2 & R2).
  unfold reg_after. rewrite E1, E2. cbn [bind V set_V].
  split; [apply R1; lia | split; [exact F1 | split; [apply R2; lia | exact F2]]].
Defined.

Lemma add_8XY4_examples :
  reg_after env0 (alu_machine x14 200 100) 0 = Ok 44 /\
  reg_after env0 (alu_machine x14 200 100) 0xF = Ok 1 /\
  reg_after env0 add_flag_machine 0xF = Ok 0.
Proof.
  pose proof (add_8XY4_sum_and_carry env0 (alu_machine x14 200 100)
                0 1 200 100 ltac:(concrete) ltac:(concrete) ltac:(concrete)
                ltac:(concrete) ltac:(concrete) ltac:(concrete)) as H1.
  pose proof (add_8XY4_sum_and_carry env0 add_flag_machine
                15 0 3 4 ltac:(concrete) ltac:(concrete) ltac:(concrete)
                ltac:(concrete) ltac:(concrete) ltac:(concrete)) as H2.
  cbv zeta in H1, H2.
  destruct H1 as (E1 & F1 & R1), H2 as (E2 & F2 & _).
  unfold reg_after. rewrite E1, E2. cbn [bind V set_V].
  split; [apply R1; lia | split; [exact F1 | exact F2]].
Defined.

(** With X = 0xF, VF = 3 and V0 = 4 the destination register is left at the
    carry flag 0, not at the sum 7. *)
Lemma add_8XY4_flag_destination :
  getitem (V add_flag_machine) 0xF = Ok 3 /\
  getitem (V add_flag_machine) 0 = Ok 4 /\
  fetched add_flag_machine 0x8F 0x04 /\
  reg_after env0 add_flag_machine 0xF = Ok 0 /\
  reg_after env0 add_flag_machine 0xF <> Ok ((3 + 4) mod 256).
Proof.
  repeat split; try (vm_compute; reflexivity).
  vm_compute. discriminate.
Qed.

Lemma subn_8XY7_examples :
  reg_after env0 (alu_machine x17 5 10) 0 = Ok 5 /\
  reg_after env0 (alu_machine x17 5 10) 0xF = Ok 1 /\
  reg_after env0 (alu_machine x17 10 5) 0 = Ok 5 /\
  reg_after env0 (alu_machine x17 10 5) 0xF = Ok 0.
Proof.
  pose proof (subn_8XY7_stores_difference env0 (alu_machine x17 5 10)
                0 1 5 10 ltac:(concrete) ltac:(concrete) ltac:(concrete)
                ltac:(concrete) ltac:(concrete) ltac:(concrete)) as H1.
  pose proof (subn_8XY7_stores_difference env0 (alu_machine x17 10 5)
                0 1 10 5 ltac:(concrete) ltac:(concrete) ltac:(concrete)
                ltac:(concrete) ltac:(concrete) ltac:(concrete)) as H2.
  cbv zeta in H1, H2.
  destruct H1 as (E1 & F1 & R1), H2 as (E2 & F2 & R2).
  unfold reg_after. rewrite E1, E2. cbn [bind V set_V].
  split; [apply R1; lia | split; [exact F1 | split; [apply R2; lia | exact F2]]].
Defined.

(** C3: reverse subtract (8XY7) run with VX = 10 and VY = 5 sets VF to 0
    and stores VX - VY = 5 into VX, which is neither VY - VX nor its residue
    251 modulo 256: the branch taken when VY is not greater than VX
    subtracts the wrong way round. *)
Lemma subn_8XY7_stores_x_minus_y :
  getitem (V (alu_machine x17 10 5)) 0 = Ok 10 /\
  getitem (V (alu_machine x17 10 5)) 1 = Ok 5 /\
  fetched (alu_machine x17 10 5) 0x80 0x17 /\
  reg_after env0 (alu_machine x17 10 5) 0 = Ok (10 - 5) /\
  reg_after env0 (alu_machine x17 10 5) 0 <> Ok (5 - 10) /\
  reg_after env0 (alu_machine x17 10 5) 0 <> Ok ((5 - 10) mod 256) /\
  reg_after env0 (alu_machine x17 10 5) 0xF = Ok 0.
Proof.
  repeat split; try (vm_compute; reflexivity); vm_compute; discriminate.
Qed.

Lemma shr_8XY6_examples :
  reg_after env0 (alu_machine x16 1 0xB6) 0 = Ok 0x5B /\
  reg_after env0 (alu_machine x16 1 0xB6) 0xF = Ok 1 /\
  reg_after env0 (shr_same_machine 0xB6) 1 = Ok 0x5B /\
  reg_after env0 (shr_same_machine 0xB6) 0xF = Ok 0.
Proof.
  pose proof (shr_8XY6_source_not_flag env0 (alu_machine x16 1 0xB6)
                0 1 1 0xB6 ltac:(concrete) ltac:(concrete) ltac:(concrete)
                ltac:(concrete) ltac:(concrete) ltac:(concrete)) as H1.
  pose proof (shr_8XY6_source_not_flag env0 (shr_same_machine 0xB6)
                1 1 0xB6 0xB6 ltac:(concrete) ltac:(concrete) ltac:(concrete)
                ltac:(concrete) ltac:(concrete) ltac:(concrete)) as H2.
  cbv zeta in H1, H2.
  destruct H1 as (E1 & R1 & F1), H2 as (E2 & R2 & F2).
  unfold reg_after. rewrite E1, E2. cbn [bind V set_V].
  split; [exact R1 | split; [apply F1; lia | split; [exact R2 | apply F2; lia]]].
Defined.

(** With the flag register as source, VF = 0xB6 and V0 = 1, the destination
    V0 receives 0: VF is overwritten with the bit of V0 before it is read. *)
Lemma shr_8XY6_flag_source :
  getitem (V shr_flag_machine) 0xF = Ok 0xB6 /\
  getitem (V shr_flag_machine) 0 = Ok 1 /\
  fetched shr_flag_machine 0x80 0xF6 /\
  reg_after env0 shr_flag_machine 0 = Ok 0 /\
  reg_after env0 shr_flag_machine 0 <> Ok (Z.shiftr 0xB6 1) /\
  reg_after env0 shr_flag_machine 0 <> Ok 0x5B.
Proof.
  repeat split; try (vm_compute; reflexivity); vm_compute; discriminate.
Qed.

Lemma sound_FX18_example :
  sound_after env0 sound_machine = Ok (sound_timer sound_machine) /\
  pc_after env0 sound_machine = Ok 0x202 /\
  stdout_after env0 sound_machine = Ok (stdout sound_machine).
Proof.
  pose proof (sound_FX18_is_noop env0 sound_machine 0
                ltac:(concrete) ltac:(concrete)) as (E & S & _ & O).
  unfold sound_after, pc_after, stdout_after. rewrite E. cbn [bind].
  rewrite S, O.
  split; [reflexivity | split; [vm_compute; reflexivity | reflexivity]].
Defined.

(** C4: the set-sound-timer opcode (FX18) run with V0 = 5 and the sound
    timer at 0 leaves the sound timer at 0, not at 5: the branch stores
    nothing. *)
Lemma sound_FX18_timer_not_set :
  getitem (V sound_machine) 0 = Ok 5 /\
  fetched sound_machine 0xF0 0x18 /\
  sound_timer sound_machine = 0 /\
  sound_after env0 sound_machine = Ok 0 /\
  sound_after env0 sound_machine <> Ok 5.
Proof.
  repeat split; try (vm_compute; reflexivity); vm_compute; discriminate.
Qed.

Lemma glyph_FX29_example :
  I_after env0 (glyph_machine 0xA) = Ok 50 /\
  py_slice (memory (glyph_machine 0xA)) 50 55 = [0xF0; 0x90; 0xF0; 0x90; 0x90].
Proof.
  pose proof (glyph_FX29_unmasked env0 (glyph_machine 0xA) 0 0xA
                ltac:(concrete) ltac:(concrete) ltac:(concrete)
                ltac:(concrete)) as (E & _).
  unfold I_after. rewrite E. cbn [bind I set_I].
  split; [reflexivity | vm_compute; reflexivity].
Defined.

(** With V0 = 0x10 the opcode sets I to 80, past the last glyph, and not to
    the address of the glyph of the low nibble 0. *)
Lemma glyph_FX29_high_nibble_kept :
  getitem (V (glyph_machine 0x10)) 0 = Ok 0x10 /\
  fetched (glyph_machine 0x10) 0xF0 0x29 /\
  I_after env0 (glyph_machine 0x10) = Ok 80 /\
  I_after env0 (glyph_machine 0x10) <> Ok (glyph_base + 5 * Z.land 0x10 0xF).
Proof.
  repeat split; try (vm_compute; reflexivity); vm_compute; discriminate.
Qed.

Lemma skip_5XYD_9XYD_examples :
  pc_after env0 (skip_machine x50 x17 9 9) = Ok 0x204 /\
  stdout_after env0 (skip_machine x50 x17 9 9)
    = Ok (stdout (skip_machine x50 x17 9 9)) /\
  pc_after env0 (skip_machine x90 x13 9 9) = Ok 0x202 /\
  stdout_after env0 (skip_machine x90 x13 9 9)
    = Ok (stdout (skip_machine x90 x13 9 9)).
Proof.
  destruct (skip_5XYD_9XYD_any_low_nibble env0 (skip_machine x50 x17 9 9)
              5 0 1 7 9 9 ltac:(left; reflexivity) ltac:(concrete)
              ltac:(concrete) ltac:(concrete) ltac:(concrete)
              ltac:(concrete) ltac:(concrete)) as (c1 & E1 & O1 & P1 & _).
  destruct (skip_5XYD_9XYD_any_low_nibble env0 (skip_machine x90 x13 9 9)
              9 0 1 3 9 9 ltac:(right; reflexivity) ltac:(concrete)
              ltac:(concrete) ltac:(concrete) ltac:(concrete)
              ltac:(concrete) ltac:(concrete)) as (c2 & E2 & O2 & P2 & _).
  unfold pc_after, stdout_after. rewrite E1, E2. cbn [bind].
  rewrite O1, O2, P1, P2.
  split; [vm_compute; reflexivity
         | split; [reflexivity | split; [vm_compute|]; reflexivity]].
Defined.

(** ** The display buffer *)

Lemma setitem_Ok {A} (l : list A) (i : Z) (a : A) :
  0 <= i < Z.of_nat (length l) -> setitem l i a = Ok (<[Z.to_nat i := a]> l).
Proof.
  intros Hi. unfold setitem. now rewrite py_index_nonneg.
Qed.

Lemma getitem_insert {A} (l : list A) (i j : Z) (a : A) :
  0 <= i < Z.of_nat (length l) -> 0 <= j ->
  getitem (<[Z.to_nat i := a]> l) j = if j =? i then Ok a else getitem l j.
Proof.
  intros Hi Hj. destruct (Z.eqb_spec j i) as [->|Hne].
  - apply getitem_lookup; [lia|]. apply list_lookup_insert_eq. lia.
  - unfold getitem, py_index. rewrite length_insert.
    destruct (Z.ltb_spec j 0); [lia|].
    destruct (_ || _); [reflexivity|]. cbn [bind].
    rewrite list_lookup_insert_ne by lia. reflexivity.
Qed.

Lemma draw_pixel_Ok (u : UI) (x y : Z) :
  wf_ui u -> 0 <= x < 64 -> 0 <= y < 32 ->
  exists u',
    draw_pixel u x y = Ok (u', pixel u x y) /\
    wf_ui u' /\ keyboard u' = keyboard u /\ flips u' = flips u /\
    forall px py, 0 <= px -> 0 <= py ->
      pixel u' px py =
      if (px =? x) && (py =? y) then negb (pixel u x y) else pixel u px py.
Proof.
  intros [Hlen Hcols] Hx Hy.
  destruct (lookup_lt_is_Some_2 (buffer u) (Z.to_nat x)) as [col Hcol]; [lia|].
  assert (Hclen : length col = 32%nat)
    by exact (Forall_lookup_1 _ _ _ _ Hcols Hcol).
  destruct (lookup_lt_is_Some_2 col (Z.to_nat y)) as [old Hold]; [lia|].
  assert (Hgc : getitem (buffer u) x = Ok col) by (apply getitem_lookup; lia || assumption).
  assert (Hgo : getitem col y = Ok old) by (apply getitem_lookup; lia || assumption).
  assert (Hpix : pixel u x y = old) by (unfold pixel; now rewrite Hgc, Hgo).
  exists (mkUI (<[Z.to_nat x := <[Z.to_nat y := negb old]> col]> (buffer u))
               (keyboard u) (flips u)).
  split; [|split; [|split; [|split]]]; try reflexivity.
  - unfold draw_pixel. rewrite Hgc. cbn [bind]. rewrite Hgo. cbn [bind].
    rewrite setitem_Ok by lia. cbn [bind].
    rewrite setitem_Ok by lia. cbn [bind]. now rewrite Hpix.
  - split; cbn [buffer].
    + now rewrite length_insert.
    + apply Forall_insert; [assumption|]. now rewrite length_insert.
  - intros px py Hpx Hpy. rewrite Hpix. unfold pixel at 1. cbn [buffer].
    rewrite getitem_insert by lia.
    destruct (Z.eqb_spec px x) as [->|Hne]; cbn [andb].
    + rewrite getitem_insert by lia.
      destruct (Z.eqb_spec py y) as [->|Hney]; [reflexivity|].
      unfold pixel. now rewrite Hgc.
    + reflexivity.
Qed.

Lemma toggle_all_app (ps qs : list (Z * Z)) :
  forall u erase,
    toggle_all (ps ++ qs) u erase =
    let* '(u', erase') := toggle_all ps u erase in toggle_all qs u' erase'.
Proof.
  induction ps as [|p ps IH]; intros u erase; cbn [toggle_all app].
  - reflexivity.
  - destruct (draw_pixel u p.1 p.2) as [[u' old]|e]; cbn [bind].
    + apply IH.
    + reflexivity.
Qed.

(** Toggling pairwise distinct pixels flips exactly those, and reports a
    collision exactly when one of them was set at the start. *)
Lemma toggle_all_NoDup (ps : list (Z * Z)) :
  forall u erase,
    wf_ui u -> Forall on_screen ps -> NoDup ps ->
    exists u',
      toggle_all ps u erase
        = Ok (u', erase || existsb (fun p => pixel u p.1 p.2) ps) /\
      wf_ui u' /\ keyboard u' = keyboard u /\ flips u' = flips u /\
      forall px py, 0 <= px -> 0 <= py ->
        pixel u' px py = xorb (pixel u px py) (bool_decide ((px, py) ∈ ps)).
Proof.
  induction ps as [|[x y] ps IH]; intros u erase Hwf Hon Hnd.
  - exists u. cbn. rewrite orb_false_r. repeat split; try apply Hwf.
    intros px py _ _. rewrite bool_decide_eq_false_2 by apply not_elem_of_nil.
    now rewrite xorb_false_r.
  - apply Forall_cons in Hon as [[Hx Hy] Hon]. cbn [fst snd] in Hx, Hy.
    apply NoDup_cons in Hnd as [Hfresh Hnd].
    destruct (draw_pixel_Ok u x y Hwf Hx Hy)
      as (u1 & Hdraw & Hwf1 & Hk1 & Hf1 & Hpix1).
    destruct (IH u1 (erase || pixel u x y) Hwf1 Hon Hnd)
      as (u' & Hrest & Hwf' & Hk' & Hf' & Hpix').
    assert (Hsame : existsb (fun p => pixel u1 p.1 p.2) ps
                    = existsb (fun p => pixel u p.1 p.2) ps).
    { clear -Hpix1 Hon Hfresh. induction ps as [|[qx qy] ps IHps]; [reflexivity|].
      apply Forall_cons in Hon as [[Hqx Hqy] Hon]. cbn [fst snd] in Hqx, Hqy.
      cbn [existsb fst snd]. rewrite IHps.
      - rewrite Hpix1 by lia.
        destruct (Z.eqb_spec qx x) as [->|]; [|reflexivity].
        destruct (Z.eqb_spec qy y) as [->|]; [|reflexivity].
        exfalso. apply Hfresh. left.
      - assumption.
      - intros Hin. apply Hfresh. now right. }
    exists u'. split; [|split; [|split; [|split]]]; try assumption; try congruence.
    + cbn [toggle_all fst snd]. rewrite Hdraw. cbn [bind]. rewrite Hrest.
      cbn [existsb fst snd]. now rewrite Hsame, orb_assoc.
    + intros px py Hpx Hpy. rewrite Hpix' by assumption.
      rewrite Hpix1 by assumption.
      destruct (Z.eqb_spec px x) as [->|Hnx]; cbn [andb].
      * destruct (Z.eqb_spec py y) as [->|Hny].
        -- rewrite (bool_decide_eq_false_2 _ Hfresh).
           rewrite bool_decide_eq_true_2 by left.
           now destruct (pixel u x y).
        -- f_equal. apply bool_decide_ext. rewrite elem_of_cons.
           split; [now right | intros [Heq|?]; [congruence | assumption]].
      * f_equal. apply bool_decide_ext. rewrite elem_of_cons.
        split; [now right | intros [Heq|?]; [congruence | assumption]].
Qed.

(** ** Sprites *)

Lemma msb_after_shifts (line j : Z) :
  0 <= j <= 7 ->
  (Z.land (Z.shiftr (Z.shiftl line j) 7) 0x1 =? 0)
  = negb (Z.testbit line (7 - j)).
Proof.
  intros Hj. rewrite Z.shiftr_shiftl_r by lia.
  rewrite (Z.testbit_odd line (7 - j)).
  change 0x1 with (Z.ones 1). rewrite Z.land_ones by lia.
  change (2 ^ 1) with 2. rewrite Zmod_odd.
  now destruct (Z.odd _).
Qed.

Lemma draw_line_toggles (line x y : Z) :
  forall (k : nat) (j : Z) (u : UI) (erase : bool),
    0 <= j -> j + Z.of_nat k = 8 ->
    draw_line k u (x + j) y (Z.shiftl line j) erase =
    toggle_all
      ((fun col => ((x + col) mod XXX, y mod YYY)) <$>
       filter (fun col => Z.testbit line (7 - col) = true)
              (seqZ j (Z.of_nat k)))
      u erase.
Proof.
  induction k as [|k IH]; intros j u erase Hj Hk.
  - reflexivity.
  - rewrite seqZ_cons by lia. rewrite filter_cons.
    replace (Z.pred (Z.of_nat (S k))) with (Z.of_nat k) by lia.
    cbn [draw_line]. rewrite msb_after_shifts by lia.
    rewrite Z.shiftl_shiftl by lia.
    replace (x + j + 1) with (x + Z.succ j) by lia.
    replace (j + 1) with (Z.succ j) by lia.
    destruct (decide (Z.testbit line (7 - j) = true)) as [Hbit|Hbit].
    + rewrite Hbit. cbn [negb fmap list_fmap toggle_all fst snd].
      destruct (draw_pixel u ((x + j) mod XXX) (y mod YYY)) as [[u' old]|e];
        cbn [bind]; [|reflexivity].
      apply IH; lia.
    + apply not_true_is_false in Hbit. rewrite Hbit. cbn [negb bind].
      apply IH; lia.
Qed.

Lemma draw_line_row (line x y : Z) (u : UI) (erase : bool) :
  draw_line 8 u x y line erase = toggle_all (row_pixels line x y) u erase.
Proof.
  pose proof (draw_line_toggles line x y 8 0 u erase) as H.
  rewrite Z.add_0_r, Z.shiftl_0_r in H. apply H; lia.
Qed.

Lemma draw_lines_toggles (V : list Z) (X vx : Z) :
  getitem V X = Ok vx ->
  forall (rows : list Z) (u : UI) (y : Z) (erase : bool),
    draw_lines rows u V X y erase = toggle_all (sprite_pixels rows vx y) u erase.
Proof.
  intros Hx. induction rows as [|line rows IH]; intros u y erase.
  - reflexivity.
  - cbn [draw_lines sprite_pixels]. rewrite Hx. cbn [bind].
    rewrite draw_line_row, toggle_all_app.
    destruct (toggle_all (row_pixels line vx y) u erase) as [[u' erase']|e];
      cbn [bind]; [apply IH | reflexivity].
Qed.

Lemma elem_of_row_pixels (p : Z * Z) (line x y : Z) :
  p ∈ row_pixels line x y <->
  exists col, 0 <= col < 8 /\ Z.testbit line (7 - col) = true /\
              p = ((x + col) mod 64, y mod 32).
Proof.
  unfold row_pixels. rewrite list_elem_of_fmap. split.
  - intros (col & -> & Hin). apply list_elem_of_filter in Hin as [Hbit Hin].
    apply elem_of_seqZ in Hin. exists col. repeat split; lia || assumption.
  - intros (col & Hcol & Hbit & ->). exists col. split; [reflexivity|].
    apply list_elem_of_filter. split; [assumption|]. apply elem_of_seqZ. lia.
Qed.

(** [sprite_pixels] holds exactly the targets of the set bits: bit
    [7 - col] of row [r] lands at [(x + col) mod 64, (y + r) mod 32]. *)
Lemma elem_of_sprite_pixels (p : Z * Z) (rows : list Z) (x : Z) :
  forall y,
    p ∈ sprite_pixels rows x y <->
    exists (r : nat) (line col : Z),
      rows !! r = Some line /\ 0 <= col < 8 /\
      Z.testbit line (7 - col) = true /\
      p = ((x + col) mod 64, (y + Z.of_nat r) mod 32).
Proof.
  induction rows as [|line rows IH]; intros y; cbn [sprite_pixels].
  - split; [intros H; inversion H | intros (r & ? & ? & H & _); discriminate].
  - rewrite elem_of_app, elem_of_row_pixels, IH. split.
    + intros [(col & Hcol & Hbit & ->) | (r & l & col & Hr & Hcol & Hbit & ->)].
      * exists 0%nat, line, col. repeat split; try assumption; try lia.
        do 2 f_equal. lia.
      * exists (S r), l, col. repeat split; try assumption; try lia.
        do 2 f_equal. lia.
    + intros (r & l & col & Hr & Hcol & Hbit & ->). destruct r as [|r].
      * left. injection Hr as ->. exists col. repeat split; try assumption; try lia.
        do 2 f_equal. lia.
      * right. exists r, l, col. repeat split; try assumption; try lia.
        do 2 f_equal. lia.
Qed.

Lemma NoDup_row_pixels (line x y : Z) : NoDup (row_pixels line x y).
Proof.
  unfold row_pixels. apply NoDup_fmap_2_strong.
  - intros c1 c2 H1 H2 Heq.
    apply list_elem_of_filter in H1 as [_ H1], H2 as [_ H2].
    apply elem_of_seqZ in H1, H2. injection Heq as Heq.
    unfold XXX in Heq. lia.
  - apply NoDup_filter, NoDup_seqZ.
Qed.

(** A sprite of at most 32 rows never hits a pixel twice. *)
Lemma NoDup_sprite_pixels (rows : list Z) (x : Z) :
  forall y, (length rows <= 32)%nat -> NoDup (sprite_pixels rows x y).
Proof.
  induction rows as [|line rows IH]; intros y Hlen; cbn [sprite_pixels].
  - apply NoDup_nil_2.
  - cbn [length] in Hlen. apply NoDup_app. split; [|split].
    + apply NoDup_row_pixels.
    + intros p Hp Hq. apply elem_of_row_pixels in Hp as (c1 & _ & _ & ->).
      apply elem_of_sprite_pixels in Hq as (r & l & c2 & Hr & _ & _ & Heq).
      apply lookup_lt_Some in Hr. injection Heq as _ Heq. lia.
    + apply IH. lia.
Qed.

Lemma sprite_pixels_on_screen (rows : list Z) (x y : Z) :
  Forall on_screen (sprite_pixels rows x y).
Proof.
  apply Forall_forall. intros p Hp.
  apply elem_of_sprite_pixels in Hp as (r & l & col & _ & _ & _ & ->).
  unfold on_screen. cbn [fst snd]. lia.
Qed.

Lemma length_py_slice_le {A} (l : list A) (a k : Z) :
  0 <= k -> Z.of_nat (length (py_slice l a (a + k))) <= k.
Proof.
  intros Hk. unfold py_slice, slice_bound.
  rewrite length_take, length_drop.
  destruct (Z.ltb_spec a 0), (Z.ltb_spec (a + k) 0); lia.
Qed.

Lemma py_slice_in_range {A} (l : list A) (a k : Z) :
  0 <= a -> 0 <= k -> a + k <= Z.of_nat (length l) ->
  py_slice l a (a + k) = take (Z.to_nat k) (drop (Z.to_nat a) l).
Proof.
  intros Ha Hk Hfit. unfold py_slice, slice_bound.
  destruct (Z.ltb_spec a 0), (Z.ltb_spec (a + k) 0); try lia.
  do 2 f_equal; lia.
Qed.

(** ** The draw opcode (DXYN) *)

Lemma emulate_cycle_family_D env c AX YD :
  fetched c AX YD -> Z.shiftr (Z.land AX 0xF0) 4 = 13 ->
  emulate_cycle env c =
  (let* y := getitem (V c) (Z.shiftr (Z.land YD 0xF0) 4) in
   let* '(u, erase) :=
     draw_lines (py_slice (memory c) (I c) (I c + Z.land YD 0x0F))
                (ui c) (V c) (Z.land AX 0x0F) y false in
   let* V' := setbyte (V c) 0xF (if erase then 1 else 0) in
   Ok (set_V V' (set_ui (update u) (advance AX YD c)))).
Proof.
  intros [H1 H2] HA. unfold emulate_cycle.
  cbn [pc set_n]. rewrite H1. cbn [bind]. rewrite H2. cbn [bind].
  rewrite HA. reflexivity.
Qed.

(** C9: the draw opcode (DXYN).  With vx = VX and vy = VY, every set bit of
    the sprite rows read from memory[I : I + N] (bit 7 - col of row r)
    toggles the pixel at ((vx + col) mod 64, (vy + r) mod 32) and no other
    pixel changes; VF is then set to 1 if one of the toggled pixels was set
    before and to 0 otherwise, and the frame is presented once.  In
    particular one row 0xFF drawn at (0,0) on a cleared display sets the 8
    pixels (0..7, 0) with VF = 0, and drawn again clears them with
    VF = 1. *)
Theorem draw_DXYN_toggles_and_collision :
  (forall env c X Y N vx vy,
     wf_V (V c) -> wf_ui (ui c) ->
     0 <= X < 16 -> 0 <= Y < 16 -> 0 <= N < 16 ->
     fetched c (16 * 13 + X) (16 * Y + N) ->
     getitem (V c) X = Ok vx -> getitem (V c) Y = Ok vy ->
     let rows := py_slice (memory c) (I c) (I c + N) in
     let hit := sprite_pixels rows vx vy in
     let flag := if existsb (fun p => pixel (ui c) p.1 p.2) hit then 1 else 0 in
     exists u',
       emulate_cycle env c
         = Ok (set_V (<[15%nat := flag]> (V c))
                     (set_ui u' (advance (16 * 13 + X) (16 * Y + N) c))) /\
       (forall px py, 0 <= px -> 0 <= py ->
          pixel u' px py
          = xorb (pixel (ui c) px py) (bool_decide ((px, py) ∈ hit))) /\
       keyboard u' = keyboard (ui c) /\
       flips u' = S (flips (ui c)) /\
       (forall p,
          p ∈ hit <->
          exists (r : nat) (line col : Z),
            rows !! r = Some line /\ 0 <= col < 8 /\
            Z.testbit line (7 - col) = true /\
            p = ((vx + col) mod 64, (vy + Z.of_nat r) mod 32)) /\
       (0 <= I c -> I c + N <= Z.of_nat (length (memory c)) ->
        rows = take (Z.to_nat N) (drop (Z.to_nat (I c)) (memory c)))) /\
  lit_pixels (ui draw_machine) = [] /\
  screen_after 1 env0 draw_machine
    = Ok ([(0, 0); (1, 0); (2, 0); (3, 0); (4, 0); (5, 0); (6, 0); (7, 0)],
          Ok 0) /\
  screen_after 2 env0 draw_machine = Ok ([], Ok 1).
Proof.
  split; [|split; [|split]]; [|vm_compute; reflexivity..].
  intros env c X Y N vx vy HwfV Hwfu HX HY HN Hf Hvx Hvy rows hit flag.
  assert (Hrows : (length rows <= 32)%nat).
  { pose proof (length_py_slice_le (memory c) (I c) N (proj1 HN)).
    subst rows. lia. }
  destruct (toggle_all_NoDup hit (ui c) false Hwfu
              (sprite_pixels_on_screen rows vx vy)
              (NoDup_sprite_pixels rows vx vy Hrows))
    as (u1 & Htog & Hwf1 & Hk1 & Hf1 & Hpix1).
  exists (update u1). split; [|split; [|split; [|split; [|split]]]].
  - rewrite (emulate_cycle_family_D env c _ _ Hf)
      by (apply land_F0_shiftr; lia).
    rewrite (land_0F 13 X), (land_0F Y N), (land_F0_shiftr Y N) by lia.
    rewrite Hvy. cbn [bind].
    rewrite (draw_lines_toggles (V c) X vx Hvx).
    fold rows. fold hit. rewrite Htog. cbn [bind orb].
    fold flag. destruct HwfV as [Hlen _].
    rewrite setbyte_Ok.
    + reflexivity.
    + rewrite Hlen. lia.
    + subst flag. unfold byte_val. destruct (existsb _ _); lia.
  - intros px py Hpx Hpy. unfold update, pixel at 1. cbn [buffer].
    exact (Hpix1 px py Hpx Hpy).
  - exact Hk1.
  - cbn [update flips]. now rewrite Hf1.
  - intros p. apply elem_of_sprite_pixels.
  - intros HI Hfit. subst rows. now apply py_slice_in_range.
Qed.

Lemma draw_DXYN_example :
  exists c',
    emulate_cycle env0 draw_machine = Ok c' /\
    getitem (V c') 0xF = Ok 0 /\
    pixel (ui c') 3 0 = true /\
    pixel (ui c') 8 0 = false /\
    flips (ui c') = 1%nat.
Proof.
  destruct (proj1 draw_DXYN_toggles_and_collision env0 draw_machine 0 0 1 0 0
              ltac:(concrete) ltac:(split; vm_compute; [reflexivity|repeat constructor])
              ltac:(concrete) ltac:(concrete) ltac:(concrete)
              ltac:(concrete) ltac:(concrete) ltac:(concrete))
    as (u' & E & Hpix & _ & Hfl & _).
  eexists. split; [exact E|].
  cbn [V ui set_V set_ui advance set_pc set_opcode set_n].
  split; [vm_compute; reflexivity|].
  split; [rewrite Hpix by lia; vm_compute; reflexivity|].
  split; [rewrite Hpix by lia; vm_compute; reflexivity|].
  rewrite Hfl. vm_compute. reflexivity.
Defined.

(** * Further properties of the interpreter *)

(** ** Decoding *)

Lemma lor_shiftl_8 (X YD : Z) :
  0 <= X < 16 -> 0 <= YD < 256 -> Z.lor (Z.shiftl X 8) YD = 256 * X + YD.
Proof.
  intros HX HYD.
  assert (T : forallb (fun x => forallb (fun y =>
                Z.lor (Z.shiftl x 8) y =? 256 * x + y) (seqZ 0 256))
                (seqZ 0 16) = true) by (vm_compute; reflexivity).
  rewrite forallb_forall in T.
  specialize (T X ltac:(apply list_elem_of_In, elem_of_seqZ; lia)).
  rewrite forallb_forall in T.
  apply Z.eqb_eq, T, list_elem_of_In, elem_of_seqZ. lia.
Qed.

(** The first steps of every cycle, for the instruction at hand. *)
Ltac fetch_with Hf HA :=
  unfold emulate_cycle; cbn [pc set_n];
  rewrite (proj1 Hf); cbn [bind]; rewrite (proj2 Hf); cbn [bind];
  rewrite HA; cbn [Z.eqb Pos.eqb].

Ltac decode_fields :=
  rewrite ?land_0F, ?land_F0_shiftr, ?lor_shiftl_8 by lia.

Lemma getitem_Ok_bound {A} (l : list A) (i : Z) (a : A) :
  0 <= i -> getitem l i = Ok a -> i < Z.of_nat (length l).
Proof.
  intros Hi Hg. apply getitem_Ok_inv in Hg; [|assumption].
  apply lookup_lt_Some in Hg. lia.
Qed.

Lemma getitem_out_of_range {A} (l : list A) (i : Z) :
  Z.of_nat (length l) <= i -> getitem l i = Raise IndexError.
Proof.
  intros Hi. unfold getitem, py_index.
  destruct (Z.ltb_spec i 0); [lia|].
  destruct (Z.ltb_spec i 0); [lia|].
  destruct (Z.leb_spec (Z.of_nat (length l)) i); [reflexivity | lia].
Qed.

(** ** Control flow *)

(** The program counter running off the memory stops the interpreter with
    [IndexError]: both bytes of the instruction must lie inside. *)
Theorem fetch_past_memory_raises env c :
  0 <= pc c -> Z.of_nat (length (memory c)) <= pc c + 1 ->
  emulate_cycle env c = Raise IndexError.
Proof.
  intros Hpc Hend. unfold emulate_cycle. cbn [pc set_n].
  destruct (getitem (memory c) (pc c)) as [AX|e] eqn:HAX; cbn [bind].
  - now rewrite getitem_out_of_range.
  - unfold getitem, py_index in HAX.
    destruct (Z.ltb_spec (pc c) 0); [lia|].
    destruct (_ || _); cbn [bind] in HAX; [congruence|].
    destruct (memory c !! Z.to_nat (pc c)); congruence.
Qed.

(** Jump (1NNN): the program counter becomes the twelve low bits of the
    instruction word, always inside the memory; nothing else changes. *)
Theorem jump_1NNN_sets_pc env c h l :
  0 <= h < 16 -> 0 <= l < 256 -> fetched c (16 * 1 + h) l ->
  emulate_cycle env c
    = Ok (set_pc (256 * h + l) (advance (16 * 1 + h) l c)) /\
  0 <= 256 * h + l < 4096.
Proof.
  intros Hh Hl Hf. split; [|lia].
  assert (HA : Z.shiftr (Z.land (16 * 1 + h) 0xF0) 4 = 1)
    by (apply land_F0_shiftr; lia).
  fetch_with Hf HA. decode_fields. reflexivity.
Qed.

Lemma stack_pop_push (st : list Z) (a : Z) :
  stack_pop (st ++ [a]) = Ok (a, st).
Proof.
  unfold stack_pop. rewrite rev_app_distr. cbn. now rewrite rev_involutive.
Qed.

(** Call (2NNN) pushes the address of the next instruction and jumps; a
    return (00EE) executed at the target then restores that address and the
    stack, and neither touches registers, I, memory or output. *)
Theorem call_2NNN_then_return_00EE env c h l :
  0 <= h < 16 -> 0 <= l < 256 -> fetched c (16 * 2 + h) l ->
  let c1 := set_pc (256 * h + l)
              (set_stack (stack c ++ [pc c + 2]) (advance (16 * 2 + h) l c)) in
  emulate_cycle env c = Ok c1 /\
  (fetched c1 0x00 0xEE ->
   exists c2,
     emulate_cycle env c1 = Ok c2 /\
     pc c2 = pc c + 2 /\ stack c2 = stack c /\
     V c2 = V c /\ I c2 = I c /\ memory c2 = memory c /\
     ui c2 = ui c /\ stdout c2 = stdout c).
Proof.
  intros Hh Hl Hf c1.
  assert (HA : Z.shiftr (Z.land (16 * 2 + h) 0xF0) 4 = 2)
    by (apply land_F0_shiftr; lia).
  assert (E1 : emulate_cycle env c = Ok c1).
  { fetch_with Hf HA. decode_fields. reflexivity. }
  split; [exact E1|]. intros Hret.
  assert (HA0 : Z.shiftr (Z.land 0x00 0xF0) 4 = 0) by reflexivity.
  eexists. split.
  - fetch_with Hret HA0. cbn [stack c1 set_pc set_stack set_opcode set_n].
    rewrite stack_pop_push. cbn [bind]. reflexivity.
  - cbn. repeat split; reflexivity.
Qed.

(** Return (00EE) with an empty stack stops the interpreter with
    [IndexError] (pop from an empty list). *)
Theorem return_00EE_empty_stack_raises env c :
  fetched c 0x00 0xEE -> stack c = [] ->
  emulate_cycle env c = Raise IndexError.
Proof.
  intros Hf Hst.
  assert (HA0 : Z.shiftr (Z.land 0x00 0xF0) 4 = 0) by reflexivity.
  fetch_with Hf HA0. cbn [stack set_pc set_stack set_opcode set_n].
  rewrite Hst. reflexivity.
Qed.

(** ** Unknown instructions *)

Ltac next_test :=
  match goal with
  | |- context [?a =? ?b] =>
      destruct (Z.eqb_spec a b); [exfalso; lia|]
  end.

(** An instruction outside the sub-opcodes of families 0, 8, 0xE and 0xF
    is not an error: the cycle prints "unkown opcode" with the instruction
    word and goes on at the next instruction, with registers, memory, I,
    stack and display untouched. *)
Theorem unknown_opcode_is_logged env c A X YD :
  0 <= X < 16 -> 0 <= YD < 256 -> unknown_word A X YD ->
  fetched c (16 * A + X) YD ->
  emulate_cycle env c
    = Ok (log_error (instr (16 * A + X) YD) (advance (16 * A + X) YD c)).
Proof.
  intros HX HYD Hun Hf.
  assert (HD : Z.land YD 0x0F = YD mod 16).
  { change 0x0F with (Z.ones 4). now rewrite Z.land_ones by lia. }
  destruct Hun as [(-> & H1 & H2) | [(-> & HDr) | [(-> & H1 & H2) | (-> & H)]]].
  - assert (HA : Z.shiftr (Z.land (16 * 0 + X) 0xF0) 4 = 0)
      by (apply land_F0_shiftr; lia).
    unfold emulate_cycle; cbn [pc set_n];
      rewrite (proj1 Hf); cbn [bind]; rewrite (proj2 Hf); cbn [bind].
    rewrite HA. change (0 =? 0x0) with true. cbv iota.
    rewrite (land_0F 0 X), (lor_shiftl_8 X YD) by lia.
    repeat next_test. reflexivity.
  - rewrite (emulate_cycle_family_8 env c _ _ Hf)
      by (apply land_F0_shiftr; lia).
    unfold alu. rewrite HD. repeat next_test. reflexivity.
  - assert (HA : Z.shiftr (Z.land (16 * 14 + X) 0xF0) 4 = 14)
      by (apply land_F0_shiftr; lia).
    unfold emulate_cycle; cbn [pc set_n];
      rewrite (proj1 Hf); cbn [bind]; rewrite (proj2 Hf); cbn [bind].
    rewrite HA.
    change (14 =? ?k) with false at 1 2 3 4 5 6 7 8 9 10 11 12 13 14.
    change (14 =? 0xE) with true. cbv iota.
    repeat next_test. reflexivity.
  - rewrite (emulate_cycle_family_F env c _ _ Hf)
      by (apply land_F0_shiftr; lia).
    unfold misc. repeat next_test. reflexivity.
Qed.

(** ** Register arithmetic *)

Lemma byte_val_land (v : Z) : byte_val v <-> Z.land v 0xFF = v.
Proof.
  change 0xFF with (Z.ones 8). rewrite Z.land_ones by lia.
  change (2 ^ 8) with 256. unfold byte_val. lia.
Qed.

Lemma byte_val_lor (a b : Z) : byte_val a -> byte_val b -> byte_val (Z.lor a b).
Proof.
  rewrite !byte_val_land. intros Ha Hb.
  now rewrite Z.land_lor_distr_l, Ha, Hb.
Qed.

Lemma byte_val_lxor (a b : Z) :
  byte_val a -> byte_val b -> byte_val (Z.lxor a b).
Proof.
  rewrite !byte_val_land. intros Ha Hb.
  rewrite <- Ha, <- Hb at 2. apply Z.bits_inj'. intros k _.
  rewrite Z.land_spec, !Z.lxor_spec, !Z.land_spec.
  now destruct (Z.testbit a k), (Z.testbit b k), (Z.testbit 0xFF k).
Qed.

Lemma land_le_r (a b : Z) : 0 <= b -> Z.land a b <= b.
Proof.
  intros Hb.
  assert (Hdisj : Z.land (Z.land a b) (Z.ldiff b a) = 0).
  { apply Z.bits_inj'. intros k _.
    rewrite !Z.land_spec, Z.ldiff_spec, Z.bits_0.
    now destruct (Z.testbit a k), (Z.testbit b k). }
  assert (Hxor : Z.lxor (Z.land a b) (Z.ldiff b a) = b).
  { apply Z.bits_inj'. intros k _.
    rewrite Z.lxor_spec, Z.land_spec, Z.ldiff_spec.
    now destruct (Z.testbit a k), (Z.testbit b k). }
  pose proof (Z.add_nocarry_lxor _ _ Hdisj) as Hsum. rewrite Hxor in Hsum.
  assert (0 <= Z.ldiff b a) by (apply Z.ldiff_nonneg; lia).
  lia.
Qed.

Lemma byte_val_land_r (a b : Z) : byte_val b -> byte_val (Z.land a b).
Proof.
  rewrite !byte_val_land. intros Hb. now rewrite <- Z.land_assoc, Hb.
Qed.

(** Assign, OR, AND and XOR (8XY0 to 8XY3) store the result into VX and
    change no other register, the flag register included; the result of two
    bytes is a byte, so the store never fails. *)
Theorem logic_8XY0_to_8XY3 env c X Y D a b :
  wf_V (V c) -> 0 <= X < 16 -> 0 <= Y < 16 -> 0 <= D <= 3 ->
  fetched c (16 * 8 + X) (16 * Y + D) ->
  getitem (V c) X = Ok a -> getitem (V c) Y = Ok b ->
  emulate_cycle env c
    = Ok (set_V (<[Z.to_nat X := logic_op D a b]> (V c))
                (advance (16 * 8 + X) (16 * Y + D) c)) /\
  byte_val (logic_op D a b).
Proof.
  intros Hwf HX HY HD Hf Ha Hb.
  pose proof (wf_V_lookup _ _ _ Hwf (proj1 HX) Ha) as Ba.
  pose proof (wf_V_lookup _ _ _ Hwf (proj1 HY) Hb) as Bb.
  assert (Hlen : 0 <= X < Z.of_nat (length (V c)))
    by (destruct Hwf as [-> _]; lia).
  rewrite (emulate_cycle_8XYD env c X Y D) by lia || assumption.
  assert (HD' : D = 0 \/ D = 1 \/ D = 2 \/ D = 3) by lia.
  destruct HD' as [-> | [-> | [-> | ->]]]; alu_body;
    rewrite ?Ha, ?Hb; cbn [bind]; unfold logic_op; cbn [Z.eqb Pos.eqb].
  - rewrite setbyte_Ok by assumption. now split.
  - pose proof (byte_val_lor a b Ba Bb).
    rewrite setbyte_Ok by assumption. now split.
  - pose proof (byte_val_land_r a b Bb).
    rewrite setbyte_Ok by assumption. now split.
  - pose proof (byte_val_lxor a b Ba Bb).
    rewrite setbyte_Ok by assumption. now split.
Qed.

(** Add immediate (7XNN) stores (VX + NN) mod 256 into VX and changes no
    other register: the carry is not recorded. *)
Theorem add_immediate_7XNN_wraps env c X NN a :
  wf_V (V c) -> 0 <= X < 16 -> 0 <= NN < 256 ->
  fetched c (16 * 7 + X) NN -> getitem (V c) X = Ok a ->
  emulate_cycle env c
    = Ok (set_V (<[Z.to_nat X := (a + NN) mod 256]> (V c))
                (advance (16 * 7 + X) NN c)).
Proof.
  intros Hwf HX HNN Hf Ha.
  pose proof (wf_V_lookup _ _ _ Hwf (proj1 HX) Ha) as Ba.
  unfold byte_val in Ba.
  assert (Hlen : 0 <= X < Z.of_nat (length (V c)))
    by (destruct Hwf as [-> _]; lia).
  assert (HA : Z.shiftr (Z.land (16 * 7 + X) 0xF0) 4 = 7)
    by (apply land_F0_shiftr; lia).
  fetch_with Hf HA. rewrite (land_0F 7 X) by lia.
  cbn [V set_pc set_opcode set_n]. rewrite Ha. cbn [bind].
  change 0xFF with (Z.ones 8). rewrite Z.land_ones by lia.
  change (2 ^ 8) with 256. change (Z.ones 8) with 255.
  destruct (Z.gtb_spec (a + NN) 255).
  - rewrite setbyte_Ok by (unfold byte_val; lia). reflexivity.
  - replace ((a + NN) mod 256) with (a + NN) by lia.
    rewrite setbyte_Ok by (unfold byte_val; lia). reflexivity.
Qed.

(** Shift left (8XYE), for any Y: VF receives the top bit of VX, then VX is
    read again and receives twice its value modulo 256; when X is the flag
    register it is the bit just written that is doubled. *)
Theorem shl_8XYE_top_bit env c X Y a :
  wf_V (V c) -> 0 <= X < 16 -> 0 <= Y < 16 ->
  fetched c (16 * 8 + X) (16 * Y + 14) -> getitem (V c) X = Ok a ->
  let bit := a / 128 in
  let shifted := (2 * (if X =? 15 then bit else a)) mod 256 in
  emulate_cycle env c
    = Ok (set_V (<[Z.to_nat X := shifted]> (<[15%nat := bit]> (V c)))
                (advance (16 * 8 + X) (16 * Y + 14) c)) /\
  0 <= bit <= 1.
Proof.
  intros Hwf HX HY Hf Ha bit shifted.
  pose proof (wf_V_lookup _ _ _ Hwf (proj1 HX) Ha) as Ba.
  unfold byte_val in Ba. destruct Hwf as [Hlen HV].
  assert (Hbit : Z.land (Z.shiftr a 7) 0x1 = bit).
  { rewrite Z.shiftr_div_pow2 by lia. change (2 ^ 7) with 128.
    change 0x1 with (Z.ones 1). rewrite Z.land_ones by lia.
    change (2 ^ 1) with 2. subst bit. lia. }
  assert (Hshl : forall v, Z.land (Z.shiftl v 1) 0xFF = (2 * v) mod 256).
  { intros v. rewrite Z.shiftl_mul_pow2 by lia. change (2 ^ 1) with 2.
    change 0xFF with (Z.ones 8). rewrite Z.land_ones by lia.
    change (2 ^ 8) with 256. f_equal. lia. }
  split; [|subst bit; lia].
  rewrite (emulate_cycle_8XYD env c X Y 14) by lia || assumption.
  alu_body. rewrite Ha. cbn [bind]. rewrite Hbit.
  rewrite setbyte_Ok by (rewrite ?Hlen; unfold byte_val; subst bit; lia).
  cbn [bind]. subst shifted.
  destruct (Z.eqb_spec X 15) as [->|HX15].
  - rewrite (getitem_lookup _ 15 bit);
      [|lia|apply list_lookup_insert_eq; rewrite Hlen; lia].
    cbn [bind]. rewrite Hshl.
    rewrite setbyte_Ok
      by (rewrite ?length_insert, ?Hlen; unfold byte_val; lia).
    reflexivity.
  - rewrite (getitem_lookup _ X a);
      [|lia|rewrite list_lookup_insert_ne by lia;
            apply getitem_Ok_inv; [lia|assumption]].
    cbn [bind]. rewrite Hshl.
    rewrite setbyte_Ok
      by (rewrite ?length_insert, ?Hlen; unfold byte_val; lia).
    reflexivity.
Qed.

(** Add to I (FX1E): VF receives 1 when I + VX exceeds 0xFFF and 0
    otherwise, then VX is read again and I becomes the sum modulo 65536;
    when X is the flag register it is the flag just written that is
    added. *)
Theorem add_to_I_FX1E env c X a :
  wf_V (V c) -> 0 <= X < 16 ->
  fetched c (16 * 15 + X) 0x1E -> getitem (V c) X = Ok a ->
  let flag := if I c + a >? 0xFFF then 1 else 0 in
  let added := if X =? 15 then flag else a in
  emulate_cycle env c
    = Ok (set_I ((added + I c) mod 65536)
                (set_V (<[15%nat := flag]> (V c))
                       (advance (16 * 15 + X) 0x1E c))).
Proof.
  intros Hwf HX Hf Ha flag added.
  destruct Hwf as [Hlen HV].
  assert (Hflag : byte_val flag)
    by (subst flag; unfold byte_val; destruct (_ >? _); lia).
  assert (Hmask : forall v, Z.land v 0xFFFF = v mod 65536).
  { intros v. change 0xFFFF with (Z.ones 16). now rewrite Z.land_ones by lia. }
  rewrite (emulate_cycle_FXNN env c X 0x1E) by assumption.
  misc_body. rewrite Ha. cbn [bind]. fold flag.
  rewrite setbyte_Ok by (rewrite ?Hlen; lia || assumption). cbn [bind].
  subst added. destruct (Z.eqb_spec X 15) as [->|HX15].
  - rewrite (getitem_lookup _ 15 flag);
      [|lia|apply list_lookup_insert_eq; rewrite Hlen; lia].
    cbn [bind]. now rewrite Hmask.
  - rewrite (getitem_lookup _ X a);
      [|lia|rewrite list_lookup_insert_ne by lia;
            apply getitem_Ok_inv; [lia|assumption]].
    cbn [bind]. now rewrite Hmask.
Qed.

(** Random (CXNN) stores the random number masked by NN into VX, whatever
    [randint] returns: the result is a byte no greater than NN and has no
    bit outside NN. *)
Theorem random_CXNN_masked env c X NN :
  wf_V (V c) -> 0 <= X < 16 -> 0 <= NN < 256 ->
  fetched c (16 * 12 + X) NN ->
  let r := Z.land (randint env) NN in
  emulate_cycle env c
    = Ok (set_V (<[Z.to_nat X := r]> (V c)) (advance (16 * 12 + X) NN c)) /\
  0 <= r <= NN /\ Z.land r NN = r.
Proof.
  intros [Hlen HV] HX HNN Hf r.
  assert (Hr : byte_val r) by (apply byte_val_land_r; unfold byte_val; lia).
  assert (Hsub : Z.land r NN = r).
  { subst r. now rewrite <- Z.land_assoc, Z.land_diag. }
  assert (Hle : r <= NN) by (subst r; apply land_le_r; lia).
  split; [|split; [unfold byte_val in Hr; lia | exact Hsub]].
  assert (HA : Z.shiftr (Z.land (16 * 12 + X) 0xF0) 4 = 12)
    by (apply land_F0_shiftr; lia).
  fetch_with Hf HA. rewrite (land_0F 12 X) by lia.
  cbn [V set_pc set_opcode set_n]. fold r.
  rewrite setbyte_Ok by (rewrite ?Hlen; lia || assumption). reflexivity.
Qed.

(** ** Register dump and load (FX55, FX65) *)

Lemma reg_dump_cells (V : list Z) (I : Z) :
  0 <= I -> Forall byte_val V ->
  forall (k : nat) (i : Z) (mem : list Z),
    0 <= i -> i + Z.of_nat k <= Z.of_nat (length V) ->
    I + i + Z.of_nat k <= Z.of_nat (length mem) ->
    exists mem',
      reg_dump k i V mem I = Ok mem' /\ length mem' = length mem /\
      (forall j, i <= j < i + Z.of_nat k ->
                 mem' !! Z.to_nat (I + j) = V !! Z.to_nat j) /\
      (forall a : nat,
         Z.of_nat a < I + i \/ I + i + Z.of_nat k <= Z.of_nat a ->
         mem' !! a = mem !! a).
Proof.
  intros HI HV. induction k as [|k IH]; intros i mem Hi HkV Hkm.
  - exists mem. cbn [reg_dump].
    split; [reflexivity | split; [reflexivity | split; [intros; lia | reflexivity]]].
  - destruct (lookup_lt_is_Some_2 V (Z.to_nat i)) as [v Hv]; [lia|].
    assert (Bv : byte_val v) by exact (Forall_lookup_1 _ _ _ _ HV Hv).
    cbn [reg_dump]. rewrite (getitem_lookup V i v) by assumption.
    cbn [bind]. rewrite setbyte_Ok by (lia || assumption). cbn [bind].
    destruct (IH (i + 1) (<[Z.to_nat (I + i) := v]> mem))
      as (mem' & Hrun & Hlen & Hin & Hout);
      [lia | lia | rewrite length_insert; lia |].
    exists mem'. split; [exact Hrun|]. split; [now rewrite Hlen, length_insert|].
    split.
    + intros j Hj. destruct (Z.eq_dec j i) as [->|Hne].
      * rewrite Hout by lia. rewrite list_lookup_insert_eq by lia.
        now rewrite Hv.
      * apply Hin. lia.
    + intros a Ha. rewrite Hout by lia.
      apply list_lookup_insert_ne. lia.
Qed.

Lemma reg_load_cells (mem : list Z) (I : Z) :
  0 <= I ->
  forall (k : nat) (i : Z) (V : list Z),
    0 <= i -> i + Z.of_nat k <= Z.of_nat (length V) ->
    (forall j, i <= j < i + Z.of_nat k ->
               exists v, mem !! Z.to_nat (I + j) = Some v /\ byte_val v) ->
    exists V',
      reg_load k i V mem I = Ok V' /\ length V' = length V /\
      (forall j, i <= j < i + Z.of_nat k ->
                 V' !! Z.to_nat j = mem !! Z.to_nat (I + j)) /\
      (forall a : nat,
         Z.of_nat a < i \/ i + Z.of_nat k <= Z.of_nat a -> V' !! a = V !! a).
Proof.
  intros HI. induction k as [|k IH]; intros i V Hi HkV Hcells.
  - exists V. cbn [reg_load].
    split; [reflexivity | split; [reflexivity | split; [intros; lia | reflexivity]]].
  - destruct (Hcells i ltac:(lia)) as (v & Hv & Bv).
    cbn [reg_load]. rewrite (getitem_lookup mem (I + i) v) by (lia || assumption).
    cbn [bind]. rewrite setbyte_Ok by (lia || assumption). cbn [bind].
    destruct (IH (i + 1) (<[Z.to_nat i := v]> V))
      as (V' & Hrun & Hlen & Hin & Hout);
      [lia | rewrite length_insert; lia | intros j Hj; apply Hcells; lia |].
    exists V'. split; [exact Hrun|]. split; [now rewrite Hlen, length_insert|].
    split.
    + intros j Hj. destruct (Z.eq_dec j i) as [->|Hne].
      * rewrite Hout by lia. rewrite list_lookup_insert_eq by lia.
        now rewrite Hv.
      * apply Hin. lia.
    + intros a Ha. rewrite Hout by lia.
      apply list_lookup_insert_ne. lia.
Qed.

(** Register dump (FX55) copies V0..VX to memory[I..I+X] and changes no
    other memory cell, no register, and not I. *)
Theorem reg_dump_FX55_copies env c X :
  wf_V (V c) -> 0 <= X < 16 -> 0 <= I c ->
  I c + X < Z.of_nat (length (memory c)) ->
  fetched c (16 * 15 + X) 0x55 ->
  exists mem',
    emulate_cycle env c
      = Ok (set_memory mem' (advance (16 * 15 + X) 0x55 c)) /\
    length mem' = length (memory c) /\
    (forall j, 0 <= j <= X -> getitem mem' (I c + j) = getitem (V c) j) /\
    (forall a : nat,
       Z.of_nat a < I c \/ I c + X < Z.of_nat a ->
       mem' !! a = memory c !! a).
Proof.
  intros [Hlen HV] HX HI Hfit Hf.
  destruct (reg_dump_cells (V c) (I c) HI HV (Z.to_nat (X + 1)) 0 (memory c))
    as (mem' & Hrun & Hlen' & Hin & Hout); [lia | lia | lia |].
  exists mem'. split; [|split; [exact Hlen'|split]].
  - rewrite (emulate_cycle_FXNN env c X 0x55) by assumption.
    misc_body. rewrite Hrun. reflexivity.
  - intros j Hj.
    destruct (lookup_lt_is_Some_2 (V c) (Z.to_nat j)) as [v Hv]; [lia|].
    rewrite (getitem_lookup (V c) j v) by (lia || assumption).
    apply getitem_lookup; [lia|]. rewrite Hin by lia. exact Hv.
  - intros a Ha. apply Hout. lia.
Qed.

(** Register load (FX65) copies memory[I..I+X] to V0..VX and changes no
    other register, no memory cell, and not I. *)
Theorem reg_load_FX65_copies env c X :
  wf_V (V c) -> Forall byte_val (memory c) -> 0 <= X < 16 -> 0 <= I c ->
  I c + X < Z.of_nat (length (memory c)) ->
  fetched c (16 * 15 + X) 0x65 ->
  exists V',
    emulate_cycle env c = Ok (set_V V' (advance (16 * 15 + X) 0x65 c)) /\
    wf_V V' /\
    (forall j, 0 <= j <= X -> getitem V' j = getitem (memory c) (I c + j)) /\
    (forall j, X < j < 16 -> getitem V' j = getitem (V c) j).
Proof.
  intros [Hlen HV] Hmem HX HI Hfit Hf.
  assert (Hcells : forall j, 0 <= j < 0 + Z.of_nat (Z.to_nat (X + 1)) ->
            exists v, memory c !! Z.to_nat (I c + j) = Some v /\ byte_val v).
  { intros j Hj.
    destruct (lookup_lt_is_Some_2 (memory c) (Z.to_nat (I c + j))) as [v Hv];
      [lia|].
    exists v. split; [exact Hv|]. exact (Forall_lookup_1 _ _ _ _ Hmem Hv). }
  destruct (reg_load_cells (memory c) (I c) HI (Z.to_nat (X + 1)) 0 (V c))
    as (V' & Hrun & Hlen' & Hin & Hout); [lia | lia | exact Hcells |].
  exists V'. split; [|split; [|split]].
  - rewrite (emulate_cycle_FXNN env c X 0x65) by assumption.
    misc_body. rewrite Hrun. reflexivity.
  - split; [congruence|]. apply Forall_lookup. intros a v Hv.
    destruct (Z_lt_le_dec (Z.of_nat a) (X + 1)) as [Hlo|Hhi].
    + specialize (Hin (Z.of_nat a) ltac:(lia)).
      rewrite Nat2Z.id in Hin. rewrite Hin in Hv.
      exact (Forall_lookup_1 _ _ _ _ Hmem Hv).
    + rewrite Hout in Hv by lia. exact (Forall_lookup_1 _ _ _ _ HV Hv).
  - intros j Hj.
    destruct (Hcells j ltac:(lia)) as (v & Hv & _).
    rewrite (getitem_lookup (memory c) (I c + j) v) by (lia || assumption).
    apply getitem_lookup; [lia|]. rewrite Hin by lia. exact Hv.
  - intros j Hj.
    destruct (lookup_lt_is_Some_2 (V c) (Z.to_nat j)) as [v Hv]; [lia|].
    rewrite (getitem_lookup (V c) j v) by (lia || assumption).
    apply getitem_lookup; [lia|]. rewrite Hout by lia. exact Hv.
Qed.

(** Round trip: after a register dump (FX55), a register load (FX65) with
    the same X, run before I or the dumped cells change, leaves the register
    file exactly as it was before the dump, and I unchanged. *)
Theorem reg_dump_then_load_round_trip env c X c1 :
  wf_V (V c) -> 0 <= X < 16 -> 0 <= I c ->
  I c + X < Z.of_nat (length (memory c)) ->
  fetched c (16 * 15 + X) 0x55 ->
  emulate_cycle env c = Ok c1 ->
  fetched c1 (16 * 15 + X) 0x65 ->
  exists c2,
    emulate_cycle env c1 = Ok c2 /\
    V c2 = V c /\ I c2 = I c /\ memory c2 = memory c1.
Proof.
  intros Hwf HX HI Hfit Hf E1 Hf1.
  destruct Hwf as [Hlen HV].
  destruct (reg_dump_cells (V c) (I c) HI HV (Z.to_nat (X + 1)) 0 (memory c))
    as (mem' & Hdump & Hlen' & Hin & _); [lia | lia | lia |].
  rewrite (emulate_cycle_FXNN env c X 0x55) in E1 by assumption.
  unfold misc in E1. cbn [Z.eqb Pos.eqb] in E1.
  cbn [V I memory advance set_pc set_opcode set_n] in E1.
  rewrite Hdump in E1. cbn [bind] in E1. injection E1 as <-.
  assert (Hcells : forall j, 0 <= j < 0 + Z.of_nat (Z.to_nat (X + 1)) ->
            exists v, mem' !! Z.to_nat (I c + j) = Some v /\ byte_val v).
  { intros j Hj.
    destruct (lookup_lt_is_Some_2 (V c) (Z.to_nat j)) as [v Hv]; [lia|].
    exists v. split; [|exact (Forall_lookup_1 _ _ _ _ HV Hv)].
    rewrite Hin by lia. exact Hv. }
  destruct (reg_load_cells mem' (I c) HI (Z.to_nat (X + 1)) 0 (V c))
    as (V' & Hrun & HlenV & HinV & HoutV); [lia | lia | exact Hcells |].
  assert (HV' : V' = V c).
  { apply list_eq. intros a.
    destruct (Z_lt_le_dec (Z.of_nat a) (X + 1)) as [Hlo|Hhi].
    - specialize (HinV (Z.of_nat a) ltac:(lia)).
      rewrite Nat2Z.id in HinV. rewrite HinV.
      specialize (Hin (Z.of_nat a) ltac:(lia)).
      rewrite Nat2Z.id in Hin. exact Hin.
    - apply HoutV. lia. }
  eexists. split.
  - rewrite (emulate_cycle_FXNN env _ X 0x65) by assumption.
    misc_body. cbn [V I memory advance set_pc set_opcode set_n set_memory].
    rewrite Hrun. reflexivity.
  - cbn. now rewrite HV'.
Qed.

(** ** The loaded image *)

Lemma setbyte_Ok_inv (b : list Z) (i v : Z) (b' : list Z) :
  0 <= i -> setbyte b i v = Ok b' ->
  i < Z.of_nat (length b) /\ byte_val v /\ b' = <[Z.to_nat i := v]> b.
Proof.
  intros Hi. unfold setbyte, py_index.
  destruct (Z.ltb_spec i 0); [lia|].
  destruct (Z.ltb_spec i 0); [lia|].
  destruct (Z.leb_spec (Z.of_nat (length b)) i); cbn [orb bind];
    [discriminate|].
  destruct (Z.leb_spec 0 v), (Z.ltb_spec v 256); cbn [andb];
    try discriminate.
  intros [= <-]. unfold byte_val. repeat split; lia.
Qed.

Lemma load_bytes_cells (data : list byte) :
  forall (mem : list Z) (addr : Z) (mem' : list Z),
    0 <= addr -> load_bytes data mem addr = Ok mem' ->
    length mem' = length mem /\
    (forall (i : nat) (b : byte),
       data !! i = Some b ->
       mem' !! (Z.to_nat addr + i)%nat = Some (Z.of_N (Byte.to_N b))) /\
    (forall a : nat,
       (a < Z.to_nat addr \/ Z.to_nat addr + length data <= a)%nat ->
       mem' !! a = mem !! a).
Proof.
  induction data as [|b data IH]; intros mem addr mem' Haddr Hload;
    cbn [load_bytes] in Hload.
  - injection Hload as <-. repeat split. intros i b Hi. discriminate.
  - destruct (setbyte mem addr (Z.of_N (Byte.to_N b))) as [mem1|e] eqn:Hset;
      cbn [bind] in Hload; [|discriminate].
    apply setbyte_Ok_inv in Hset as (Hin & _ & ->); [|assumption].
    destruct (IH _ (addr + 1) _ ltac:(lia) Hload) as (Hlen & Hcells & Hout).
    rewrite length_insert in Hlen.
    split; [exact Hlen|]. split.
    + intros [|i] b' Hi.
      * injection Hi as <-. rewrite Hout by lia.
        rewrite Nat.add_0_r. apply list_lookup_insert_eq. lia.
      * replace (Z.to_nat addr + S i)%nat with (Z.to_nat (addr + 1) + i)%nat
          by lia.
        now apply Hcells.
    + intros a Ha. cbn [length] in Ha. rewrite Hout by lia.
      apply list_lookup_insert_ne. lia.
Qed.

(** A successful [load_rom] puts byte i of the image at address pc + i,
    leaves every other memory cell (the font below 0x200 included) and the
    rest of the machine as they were, and prints one line; it succeeds only
    for an image shorter than the room above the program counter. *)
Theorem load_rom_contents (data : list byte) (c c' : Chip8) :
  0 <= pc c -> load_rom data c = Ok c' ->
  c' = log_info (Z.of_nat (length data)) (set_memory (memory c') c) /\
  length (memory c') = length (memory c) /\
  Z.of_nat (length data) < Z.of_nat (length (memory c)) - pc c /\
  (forall (i : nat) (b : byte),
     data !! i = Some b ->
     getitem (memory c') (pc c + Z.of_nat i) = Ok (Z.of_N (Byte.to_N b))) /\
  (forall a : nat,
     Z.of_nat a < pc c \/ pc c + Z.of_nat (length data) <= Z.of_nat a ->
     memory c' !! a = memory c !! a).
Proof.
  intros Hpc. unfold load_rom.
  destruct (Z.gtb_spec (Z.of_nat (length (memory c)) - pc c)
                       (Z.of_nat (length data))) as [Hroom|]; [|discriminate].
  destruct (load_bytes data (memory c) (pc c)) as [mem'|e] eqn:Hload;
    cbn [bind]; [|discriminate].
  intros [= <-].
  destruct (load_bytes_cells data _ _ _ Hpc Hload) as (Hlen & Hcells & Hout).
  cbn [memory log_info print set_memory].
  split; [reflexivity|]. split; [exact Hlen|]. split; [lia|]. split.
  - intros i b Hi. apply getitem_lookup; [lia|].
    replace (Z.to_nat (pc c + Z.of_nat i)) with (Z.to_nat (pc c) + i)%nat
      by lia.
    now apply Hcells.
  - intros a Ha. apply Hout. lia.
Qed.

(** ** Keys *)

(** Key skips (EX9E, EXA1): with k = VX a valid key index, the next
    instruction is skipped when key k is down (EX9E), respectively up
    (EXA1); nothing else changes. *)
Theorem key_skip_EX9E_EXA1 env c X YD k down :
  0 <= X < 16 -> YD = 0x9E \/ YD = 0xA1 ->
  fetched c (16 * 14 + X) YD ->
  getitem (V c) X = Ok k -> getitem (keyboard (ui c)) k = Ok down ->
  let skip := if YD =? 0x9E then down else negb down in
  exists c',
    emulate_cycle env c = Ok c' /\
    pc c' = pc c + (if skip then 4 else 2) /\
    c' = set_pc (pc c') (advance (16 * 14 + X) YD c).
Proof.
  intros HX HYD Hf Hk Hdown skip.
  assert (HA : Z.shiftr (Z.land (16 * 14 + X) 0xF0) 4 = 14)
    by (apply land_F0_shiftr; lia).
  unfold emulate_cycle; cbn [pc set_n];
    rewrite (proj1 Hf); cbn [bind]; rewrite (proj2 Hf); cbn [bind].
  rewrite HA. rewrite (land_0F 14 X) by lia.
  cbn [V ui set_pc set_opcode set_n]. subst skip.
  destruct HYD as [-> | ->]; cbn [Z.eqb Pos.eqb];
    rewrite Hk; cbn [bind]; rewrite Hdown; cbn [bind];
    destruct down; cbn [negb]; eexists; (split; [reflexivity|]);
    cbn; (split; [lia | reflexivity]).
Qed.

(** A key skip whose register holds no valid key index (16 or more for
    the sixteen keys) stops the interpreter with [IndexError]. *)
Theorem key_skip_bad_index_raises env c X YD k :
  0 <= X < 16 -> YD = 0x9E \/ YD = 0xA1 ->
  fetched c (16 * 14 + X) YD ->
  getitem (V c) X = Ok k -> Z.of_nat (length (keyboard (ui c))) <= k ->
  emulate_cycle env c = Raise IndexError.
Proof.
  intros HX HYD Hf Hk Hbig.
  assert (HA : Z.shiftr (Z.land (16 * 14 + X) 0xF0) 4 = 14)
    by (apply land_F0_shiftr; lia).
  unfold emulate_cycle; cbn [pc set_n];
    rewrite (proj1 Hf); cbn [bind]; rewrite (proj2 Hf); cbn [bind].
  rewrite HA. rewrite (land_0F 14 X) by lia.
  cbn [V ui set_pc set_opcode set_n].
  destruct HYD as [-> | ->]; cbn [Z.eqb Pos.eqb];
    rewrite Hk; cbn [bind]; now rewrite getitem_out_of_range.
Qed.

(** ** The display *)

Lemma getitem_Ok_elem {A} (l : list A) (i : Z) (a : A) :
  getitem l i = Ok a -> a ∈ l.
Proof.
  unfold getitem. destruct (py_index l i) as [j|e]; cbn [bind]; [|discriminate].
  destruct (l !! j) eqn:Hj; [|discriminate].
  intros [= <-]. eapply list_elem_of_lookup_2, Hj.
Qed.

Lemma pixel_clear_screen (u : UI) (x y : Z) :
  pixel (clear_screen u) x y = false.
Proof.
  unfold pixel, clear_screen. cbn [buffer].
  destruct (getitem (replicate _ _) x) as [col|e] eqn:Hcol; [|reflexivity].
  apply getitem_Ok_elem, elem_of_replicate in Hcol as [-> _].
  destruct (getitem (replicate _ _) y) as [b|e] eqn:Hb; [|reflexivity].
  now apply getitem_Ok_elem, elem_of_replicate in Hb as [-> _].
Qed.

(** Clear screen (00E0) leaves every pixel unset, keeps the size of the
    display and the keys, and changes nothing else in the machine. *)
Theorem clear_00E0_unsets_all env c :
  fetched c 0x00 0xE0 ->
  emulate_cycle env c
    = Ok (set_ui (clear_screen (ui c)) (advance 0x00 0xE0 c)) /\
  (forall x y, pixel (clear_screen (ui c)) x y = false) /\
  wf_ui (clear_screen (ui c)) /\
  keyboard (clear_screen (ui c)) = keyboard (ui c).
Proof.
  intros Hf.
  assert (HA0 : Z.shiftr (Z.land 0x00 0xF0) 4 = 0) by reflexivity.
  split; [|split; [|split]].
  - fetch_with Hf HA0. reflexivity.
  - intros x y. apply pixel_clear_screen.
  - split; cbn [clear_screen buffer].
    + now rewrite length_replicate.
    + apply Forall_replicate. now rewrite length_replicate.
  - reflexivity.
Qed.

(** One draw cycle, in terms of the pixels of the sprite. *)
Lemma draw_cycle env c X Y N vx vy :
  wf_V (V c) -> wf_ui (ui c) ->
  0 <= X < 16 -> 0 <= Y < 16 -> 0 <= N < 16 ->
  fetched c (16 * 13 + X) (16 * Y + N) ->
  getitem (V c) X = Ok vx -> getitem (V c) Y = Ok vy ->
  let hit := sprite_pixels (py_slice (memory c) (I c) (I c + N)) vx vy in
  let flag := if existsb (fun p => pixel (ui c) p.1 p.2) hit then 1 else 0 in
  exists u',
    emulate_cycle env c
      = Ok (set_V (<[15%nat := flag]> (V c))
                  (set_ui u' (advance (16 * 13 + X) (16 * Y + N) c))) /\
    wf_ui u' /\
    (forall px py, 0 <= px -> 0 <= py ->
       pixel u' px py
       = xorb (pixel (ui c) px py) (bool_decide ((px, py) ∈ hit))) /\
    keyboard u' = keyboard (ui c) /\
    flips u' = S (flips (ui c)).
Proof.
  intros HwfV Hwfu HX HY HN Hf Hvx Hvy hit flag.
  set (rows := py_slice (memory c) (I c) (I c + N)) in *.
  assert (Hrows : (length rows <= 32)%nat).
  { pose proof (length_py_slice_le (memory c) (I c) N (proj1 HN)).
    subst rows. lia. }
  destruct (toggle_all_NoDup hit (ui c) false Hwfu
              (sprite_pixels_on_screen rows vx vy)
              (NoDup_sprite_pixels rows vx vy Hrows))
    as (u1 & Htog & Hwf1 & Hk1 & Hf1 & Hpix1).
  exists (update u1). split; [|split; [|split; [|split]]].
  - rewrite (emulate_cycle_family_D env c _ _ Hf)
      by (apply land_F0_shiftr; lia).
    rewrite (land_0F 13 X), (land_0F Y N), (land_F0_shiftr Y N) by lia.
    rewrite Hvy. cbn [bind].
    rewrite (draw_lines_toggles (V c) X vx Hvx).
    fold rows. fold hit. rewrite Htog. cbn [bind orb].
    fold flag. destruct HwfV as [Hlen _].
    rewrite setbyte_Ok.
    + reflexivity.
    + rewrite Hlen. lia.
    + subst flag. unfold byte_val. destruct (existsb _ _); lia.
  - exact Hwf1.
  - intros px py Hpx Hpy. unfold update, pixel at 1. cbn [buffer].
    exact (Hpix1 px py Hpx Hpy).
  - exact Hk1.
  - cbn [update flips]. now rewrite Hf1.
Qed.

(** Drawing is its own inverse: when the same draw instruction runs twice
    in a row, with sprite coordinates taken from registers other than VF,
    every pixel is back in the state it had before the first draw. *)
Theorem draw_DXYN_twice_restores env c X Y N vx vy c1 :
  wf_V (V c) -> wf_ui (ui c) ->
  0 <= X < 15 -> 0 <= Y < 15 -> 0 <= N < 16 ->
  fetched c (16 * 13 + X) (16 * Y + N) ->
  getitem (V c) X = Ok vx -> getitem (V c) Y = Ok vy ->
  emulate_cycle env c = Ok c1 ->
  fetched c1 (16 * 13 + X) (16 * Y + N) ->
  exists c2,
    emulate_cycle env c1 = Ok c2 /\
    forall px py, 0 <= px -> 0 <= py ->
      pixel (ui c2) px py = pixel (ui c) px py.
Proof.
  intros HwfV Hwfu HX HY HN Hf Hvx Hvy E1 Hf1.
  destruct (draw_cycle env c X Y N vx vy HwfV Hwfu ltac:(lia) ltac:(lia)
              HN Hf Hvx Hvy) as (u1 & E1' & Hwf1 & Hpix1 & _).
  rewrite E1' in E1. injection E1 as <-.
  set (flag := if existsb _ _ then 1 else 0) in *.
  set (c1 := set_V _ _) in *.
  assert (Hflag : byte_val flag)
    by (subst flag; unfold byte_val; destruct (existsb _ _); lia).
  assert (HwfV1 : wf_V (V c1)) by (now apply wf_V_insert).
  assert (Hvx1 : getitem (V c1) X = Ok vx).
  { apply getitem_lookup; [lia|]. cbn [c1 V set_V].
    rewrite list_lookup_insert_ne by lia.
    apply getitem_Ok_inv; [lia | assumption]. }
  assert (Hvy1 : getitem (V c1) Y = Ok vy).
  { apply getitem_lookup; [lia|]. cbn [c1 V set_V].
    rewrite list_lookup_insert_ne by lia.
    apply getitem_Ok_inv; [lia | assumption]. }
  destruct (draw_cycle env c1 X Y N vx vy HwfV1 Hwf1 ltac:(lia) ltac:(lia)
              HN Hf1 Hvx1 Hvy1) as (u2 & E2 & _ & Hpix2 & _).
  eexists. split; [exact E2|].
  intros px py Hpx Hpy. cbn [ui set_V set_ui].
  rewrite Hpix2 by assumption. cbn [c1 ui memory I set_V set_ui advance
                                    set_pc set_opcode set_n].
  rewrite Hpix1 by assumption.
  now rewrite xorb_assoc, xorb_nilpotent, xorb_false_r.
Qed.

(** A draw of height 0 (DXY0) reads no sprite row: no pixel changes, VF is
    set to 0 and the frame is presented once. *)
Theorem draw_DXY0_draws_nothing env c X Y vy :
  wf_V (V c) -> 0 <= X < 16 -> 0 <= Y < 16 ->
  fetched c (16 * 13 + X) (16 * Y + 0) -> getitem (V c) Y = Ok vy ->
  emulate_cycle env c
    = Ok (set_V (<[15%nat := 0]> (V c))
                (set_ui (update (ui c))
                        (advance (16 * 13 + X) (16 * Y + 0) c))) /\
  buffer (update (ui c)) = buffer (ui c).
Proof.
  intros [Hlen _] HX HY Hf Hvy. split; [|reflexivity].
  rewrite (emulate_cycle_family_D env c _ _ Hf)
    by (apply land_F0_shiftr; lia).
  rewrite (land_0F 13 X), (land_0F Y 0), (land_F0_shiftr Y 0) by lia.
  rewrite Hvy. cbn [bind].
  assert (Hrows : py_slice (memory c) (I c) (I c + 0) = []).
  { pose proof (length_py_slice_le (memory c) (I c) 0 ltac:(lia)) as Hle.
    destruct (py_slice _ _ _); [reflexivity | cbn [length] in Hle; lia]. }
  rewrite Hrows. cbn [draw_lines bind].
  rewrite setbyte_Ok by (rewrite ?Hlen; unfold byte_val; lia).
  reflexivity.
Qed.

(** ** Memory bounds *)

(** The BCD opcode (FX33) with fewer than three cells left above I stops
    the interpreter with [IndexError]. *)
Theorem bcd_FX33_past_memory_raises env c X v :
  wf_V (V c) -> 0 <= X < 16 -> fetched c (16 * 15 + X) 0x33 ->
  getitem (V c) X = Ok v ->
  0 <= I c -> Z.of_nat (length (memory c)) <= I c + 2 ->
  emulate_cycle env c = Raise IndexError.
Proof.
  intros Hwf HX Hf Hv HI Hend.
  pose proof (wf_V_lookup _ _ _ Hwf (proj1 HX) Hv) as Bv.
  unfold byte_val in Bv.
  assert (Hraise : forall (m : list Z) (a w : Z),
            0 <= a -> Z.of_nat (length m) <= a ->
            setbyte m a w = Raise IndexError).
  { intros m a w Ha Hbig. unfold setbyte, py_index.
    destruct (Z.ltb_spec a 0); [lia|].
    destruct (Z.ltb_spec a 0); [lia|].
    destruct (Z.leb_spec (Z.of_nat (length m)) a); [reflexivity | lia]. }
  rewrite (emulate_cycle_FXNN env c X 0x33) by assumption.
  misc_body. rewrite Hv. cbn [bind].
  destruct (Z_lt_le_dec (I c) (Z.of_nat (length (memory c)))) as [H0|H0];
    [|now rewrite Hraise].
  rewrite setbyte_Ok by (unfold byte_val; lia). cbn [bind].
  destruct (Z_lt_le_dec (I c + 1) (Z.of_nat (length (memory c)))) as [H1|H1];
    [|rewrite Hraise; [reflexivity | lia | rewrite length_insert; lia]].
  rewrite setbyte_Ok by (rewrite ?length_insert; unfold byte_val; lia).
  cbn [bind].
  rewrite Hraise; [reflexivity | lia | rewrite !length_insert; lia].
Qed.

(** ** The invariant of the machine *)

Lemma setbyte_wf_bytes (n : nat) (b : list Z) (i v : Z) (b' : list Z) :
  wf_bytes n b -> setbyte b i v = Ok b' -> wf_bytes n b'.
Proof.
  intros [Hlen Hb]. unfold setbyte.
  destruct (py_index b i) as [j|e]; cbn [bind]; [|discriminate].
  destruct (Z.leb_spec 0 v), (Z.ltb_spec v 256); cbn [andb];
    try discriminate.
  intros [= <-]. split.
  - now rewrite length_insert.
  - apply Forall_insert; [assumption | unfold byte_val; lia].
Qed.

Lemma getitem_wf_bytes (n : nat) (b : list Z) (i v : Z) :
  wf_bytes n b -> getitem b i = Ok v -> 0 <= v < 256.
Proof.
  intros [_ Hb] Hg. apply getitem_Ok_elem in Hg.
  rewrite Forall_forall in Hb. exact (Hb v Hg).
Qed.

Lemma reg_dump_wf_bytes (n : nat) (V : list Z) (I : Z) :
  forall (k : nat) (i : Z) (mem mem' : list Z),
    wf_bytes n mem -> reg_dump k i V mem I = Ok mem' -> wf_bytes n mem'.
Proof.
  induction k as [|k IH]; intros i mem mem' Hm; cbn [reg_dump].
  - now intros [= <-].
  - destruct (getitem V i) as [v|e]; cbn [bind]; [|discriminate].
    destruct (setbyte mem (I + i) v) as [mem1|e] eqn:Hset; cbn [bind];
      [|discriminate].
    apply IH. eapply setbyte_wf_bytes; eassumption.
Qed.

Lemma reg_load_wf_bytes (n : nat) (mem : list Z) (I : Z) :
  forall (k : nat) (i : Z) (V V' : list Z),
    wf_bytes n V -> reg_load k i V mem I = Ok V' -> wf_bytes n V'.
Proof.
  induction k as [|k IH]; intros i V V' HV; cbn [reg_load].
  - now intros [= <-].
  - destruct (getitem mem (I + i)) as [v|e]; cbn [bind]; [|discriminate].
    destruct (setbyte V i v) as [V1|e] eqn:Hset; cbn [bind]; [|discriminate].
    apply IH. eapply setbyte_wf_bytes; eassumption.
Qed.

(** The size of the display and the keys, as one fact to carry along. *)
Lemma draw_line_keeps (k : nat) :
  forall (u : UI) (x y line : Z) (erase : bool) (u' : UI) (erase' : bool),
    wf_ui u -> draw_line k u x y line erase = Ok (u', erase') ->
    wf_ui u' /\ keyboard u' = keyboard u.
Proof.
  induction k as [|k IH]; intros u x y line erase u' erase' Hwf;
    cbn [draw_line].
  - intros [= <- _]. now split.
  - destruct (Z.land (Z.shiftr line 7) 0x1 =? 0); cbn [bind].
    + apply IH, Hwf.
    + destruct (draw_pixel_Ok u (x mod XXX) (y mod YYY) Hwf)
        as (u1 & Hdraw & Hwf1 & Hk1 & _); [unfold XXX; lia | unfold YYY; lia |].
      rewrite Hdraw. cbn [bind]. intros Hrest.
      destruct (IH _ _ _ _ _ _ _ Hwf1 Hrest) as [Hwf' Hk'].
      split; [assumption | congruence].
Qed.

Lemma draw_lines_keeps (V : list Z) (X : Z) (rows : list Z) :
  forall (u : UI) (y : Z) (erase : bool) (u' : UI) (erase' : bool),
    wf_ui u -> draw_lines rows u V X y erase = Ok (u', erase') ->
    wf_ui u' /\ keyboard u' = keyboard u.
Proof.
  induction rows as [|line rows IH]; intros u y erase u' erase' Hwf;
    cbn [draw_lines].
  - intros [= <- _]. now split.
  - destruct (getitem V X) as [x|e]; cbn [bind]; [|discriminate].
    destruct (draw_line 8 u x y line erase) as [[u1 e1]|e] eqn:Hline;
      cbn [bind]; [|discriminate].
    destruct (draw_line_keeps _ _ _ _ _ _ _ _ Hwf Hline) as [Hwf1 Hk1].
    intros Hrest. destruct (IH _ _ _ _ _ Hwf1 Hrest) as [Hwf' Hk'].
    split; [assumption | congruence].
Qed.

Lemma stack_pop_inv (st : list Z) (top : Z) (rest : list Z) :
  stack_pop st = Ok (top, rest) -> st = rest ++ [top].
Proof.
  unfold stack_pop. destruct (rev st) as [|a l] eqn:Hrev; [discriminate|].
  intros [= <- <-]. rewrite <- (rev_involutive st), Hrev. reflexivity.
Qed.

Lemma land_FFFF (v : Z) : Z.land v 0xFFFF = v mod 65536.
Proof. change 0xFFFF with (Z.ones 16). now rewrite Z.land_ones by lia. Qed.

Lemma decode_ranges (AX YD : Z) :
  0 <= AX < 256 -> 0 <= YD < 256 ->
  0 <= Z.land AX 0x0F < 16 /\
  0 <= Z.lor (Z.shiftl (Z.land AX 0x0F) 8) YD < 4096.
Proof.
  intros HAX HYD.
  assert (HX : 0 <= Z.land AX 0x0F < 16).
  { change 0x0F with (Z.ones 4). rewrite Z.land_ones by lia.
    change (2 ^ 4) with 16. lia. }
  split; [exact HX|]. rewrite lor_shiftl_8 by assumption. lia.
Qed.

Lemma wf_stateb_true (c : Chip8) : wf_stateb c = true -> wf_state c.
Proof.
  unfold wf_stateb, wf_state, bytesb. intros H.
  repeat match type of H with
         | _ && _ = true =>
             let H' := fresh "Hb" in
             apply andb_prop in H; destruct H as [H H']
         end.
  repeat match goal with
         | Hb : (_ =? _)%nat = true |- _ => apply Nat.eqb_eq in Hb
         | Hb : forallb _ _ = true |- _ => rewrite forallb_forall in Hb
         end.
  split; [now apply wf_Vb_true|].
  split; [assumption|]. split.
  { apply Forall_forall. intros v Hv. apply list_elem_of_In in Hv.
    match goal with Hb : forall x, In x (memory c) -> _ |- _ =>
      apply Hb in Hv end.
    unfold byte_val. lia. }
  split.
  { split; [assumption|]. apply Forall_forall. intros col Hc.
    apply list_elem_of_In in Hc.
    match goal with Hb : forall x, In x (buffer (ui c)) -> _ |- _ =>
      apply Hb in Hc end.
    now apply Nat.eqb_eq. }
  split; [assumption|]. split; [lia|]. split; [lia|].
  apply Forall_forall. intros a Ha. apply list_elem_of_In in Ha.
  match goal with Hb : forall x, In x (stack c) -> _ |- _ =>
    apply Hb in Ha end.
  lia.
Qed.

Ltac cycle_case E :=
  lazymatch type of E with
  | Ok _ = Ok _ => injection E as <-
  | Raise _ = Ok _ => discriminate E
  | (if ?b then _ else _) = Ok _ => destruct b eqn:?
  | bind ?m _ = Ok _ =>
      let H := fresh "Hrun" in
      destruct m as [?|?] eqn:H; cbn [bind] in E; [|discriminate E]
  | match ?p with pair _ _ => _ end = Ok _ => destruct p
  end.

Ltac carry_facts :=
  repeat match goal with
  | H : setbyte ?b _ _ = Ok ?b', Hb : wf_bytes ?n ?b |- _ =>
      lazymatch goal with
      | _ : wf_bytes n b' |- _ => fail
      | _ => pose proof (setbyte_wf_bytes n _ _ _ _ Hb H)
      end
  | H : reg_dump _ _ _ ?b _ = Ok ?b', Hb : wf_bytes ?n ?b |- _ =>
      lazymatch goal with
      | _ : wf_bytes n b' |- _ => fail
      | _ => pose proof (reg_dump_wf_bytes n _ _ _ _ _ _ Hb H)
      end
  | H : reg_load _ _ ?b _ _ = Ok ?b', Hb : wf_bytes ?n ?b |- _ =>
      lazymatch goal with
      | _ : wf_bytes n b' |- _ => fail
      | _ => pose proof (reg_load_wf_bytes n _ _ _ _ _ _ Hb H)
      end
  | H : getitem ?b _ = Ok ?v, Hb : wf_bytes ?n ?b |- _ =>
      lazymatch goal with
      | _ : 0 <= v < 256 |- _ => fail
      | _ => pose proof (getitem_wf_bytes n _ _ _ Hb H)
      end
  | H : draw_lines _ ?u _ _ _ _ = Ok (?u', _), Hu : wf_ui ?u |- _ =>
      lazymatch goal with
      | _ : wf_ui u' |- _ => fail
      | _ => destruct (draw_lines_keeps _ _ _ _ _ _ _ _ Hu H)
      end
  | H : stack_pop ?st = Ok (?top, ?rest), Hs : Forall _ ?st |- _ =>
      apply stack_pop_inv in H; rewrite H in Hs;
      apply Forall_app in Hs; destruct Hs as [? Hs];
      apply (proj1 (Forall_singleton _ _)) in Hs
  end.

Lemma emulate_cycle_keeps_wf_state env c c' :
  wf_state c -> emulate_cycle env c = Ok c' -> wf_state c'.
Proof.
  intros (HV & Hml & Hmb & Hui & Hkb & HI & Hpc & Hst) E.
  assert (HVb : wf_bytes 16 (V c)) by exact HV.
  assert (Hmem : wf_bytes 4096 (memory c)) by (split; assumption).
  unfold emulate_cycle in E. cbn [pc set_n] in E.
  destruct (getitem (memory c) (pc c)) as [AX|e] eqn:HAX;
    cbn [bind] in E; [|discriminate].
  destruct (getitem (memory c) (pc c + 1)) as [YD|e] eqn:HYD;
    cbn [bind] in E; [|discriminate].
  pose proof (getitem_wf_bytes _ _ _ _ Hmem HAX) as BAX.
  pose proof (getitem_wf_bytes _ _ _ _ Hmem HYD) as BYD.
  pose proof (getitem_Ok_bound (memory c) (pc c + 1) YD ltac:(lia) HYD)
    as Hpc1.
  rewrite Hml in Hpc1.
  destruct (decode_ranges AX YD BAX BYD) as [HX HNNN].
  set (X := Z.land AX 0x0F) in *.
  set (NNN := Z.lor (Z.shiftl X 8) YD) in *.
  set (A := Z.shiftr (Z.land AX 0xF0) 4) in *.
  set (Y := Z.shiftr (Z.land YD 0xF0) 4) in *.
  set (D := Z.land YD 0x0F) in *.
  set (word := Z.lor (Z.shiftl AX 8) YD) in *.
  unfold alu, misc in E.
  cbn [V I memory pc stack ui keyboard buffer flips
       set_n set_pc set_opcode set_I set_V set_stack set_memory
       set_delay_timer set_ui log_error print clear_screen update] in E.
  repeat cycle_case E; carry_facts;
    unfold wf_state;
    cbn [V I memory pc stack ui keyboard buffer flips
         set_n set_pc set_opcode set_I set_V set_stack set_memory
         set_delay_timer set_ui log_error print clear_screen update];
    rewrite ?land_FFFF;
    (split; [|split; [|split; [|split; [|split; [|split; [|split]]]]]]);
    try assumption;
    try match goal with
        | H : wf_bytes _ ?l |- wf_V ?l => exact H
        | H : wf_bytes _ ?l |- length ?l = _ => exact (proj1 H)
        | H : wf_bytes _ ?l |- Forall byte_val ?l => exact (proj2 H)
        | |- Forall _ (_ ++ [_]) =>
            apply Forall_app; split;
              [assumption | apply Forall_singleton; lia]
        | |- wf_ui (clear_screen _) =>
            split; cbn [clear_screen buffer];
              [now rewrite length_replicate
              | apply Forall_replicate; now rewrite length_replicate]
        | H : wf_ui ?u |- wf_ui (mkUI (buffer ?u) _ _) => exact H
        | |- length (keyboard _) = _ => congruence
        | |- _ => lia
        end.
Qed.

Lemma load_bytes_wf_bytes (n : nat) (data : list byte) :
  forall (mem : list Z) (addr : Z) (mem' : list Z),
    wf_bytes n mem -> load_bytes data mem addr = Ok mem' -> wf_bytes n mem'.
Proof.
  induction data as [|b data IH]; intros mem addr mem' Hm; cbn [load_bytes].
  - now intros [= <-].
  - destruct (setbyte mem addr _) as [mem1|e] eqn:Hset; cbn [bind];
      [|discriminate].
    apply IH. eapply setbyte_wf_bytes; eassumption.
Qed.

(** The machine [__init__] builds is well formed, and [load_rom] keeps it
    so: together with the cycles, every state the interpreter reaches
    is. *)
Theorem init_and_load_rom_wf_state :
  wf_state (chip8_init ui_init) /\
  forall (data : list byte) (c c' : Chip8),
    wf_state c -> load_rom data c = Ok c' -> wf_state c'.
Proof.
  split; [apply wf_stateb_true; vm_compute; reflexivity|].
  intros data c c' (HV & Hml & Hmb & Hrest). unfold load_rom.
  destruct (_ >? _); [|discriminate].
  destruct (load_bytes data (memory c) (pc c)) as [mem'|e] eqn:Hload;
    cbn [bind]; [|discriminate].
  intros [= <-].
  destruct (load_bytes_wf_bytes 4096 data _ _ _ (conj Hml Hmb) Hload)
    as [Hml' Hmb'].
  unfold wf_state.
  cbn [V I memory pc stack ui log_info print set_memory].
  split; [exact HV|]. split; [exact Hml'|]. split; [exact Hmb'|].
  exact Hrest.
Qed.

(** Cycles that succeed keep the machine well formed, however many run
    and whatever random number and clock each of them reads: sixteen byte
    registers, 4096 bytes of memory, a 64 x 32 display, sixteen keys, and I,
    the program counter and the return addresses within 16 bits. *)
Theorem emulate_cycles_keep_wf_state (envs : list Env) :
  forall c c', wf_state c -> emulate_cycles envs c = Ok c' -> wf_state c'.
Proof.
  induction envs as [|env envs IH]; intros c c' Hwf; cbn [emulate_cycles].
  - now intros [= <-].
  - destruct (emulate_cycle env c) as [c1|e] eqn:E; cbn [bind];
      [|discriminate].
    apply IH. eapply emulate_cycle_keeps_wf_state; eassumption.
Qed.

(** ** What a cycle never does *)

Lemma draw_pixel_frame (u : UI) (x y : Z) (u' : UI) (old : bool) :
  draw_pixel u x y = Ok (u', old) ->
  keyboard u' = keyboard u /\ flips u' = flips u.
Proof.
  unfold draw_pixel.
  destruct (getitem (buffer u) x) as [col|e]; cbn [bind]; [|discriminate].
  destruct (getitem col y) as [b|e]; cbn [bind]; [|discriminate].
  destruct (setitem col y (negb b)) as [col'|e]; cbn [bind]; [|discriminate].
  destruct (setitem (buffer u) x col') as [buf|e]; cbn [bind];
    [|discriminate].
  intros [= <- _]. now split.
Qed.

Lemma draw_line_frame (k : nat) :
  forall (u : UI) (x y line : Z) (erase : bool) (u' : UI) (erase' : bool),
    draw_line k u x y line erase = Ok (u', erase') ->
    keyboard u' = keyboard u /\ flips u' = flips u.
Proof.
  induction k as [|k IH]; intros u x y line erase u' erase'; cbn [draw_line].
  - intros [= <- _]. now split.
  - destruct (Z.land (Z.shiftr line 7) 0x1 =? 0); cbn [bind]; [apply IH|].
    destruct (draw_pixel u (x mod XXX) (y mod YYY)) as [[u1 old]|e] eqn:Hd;
      cbn [bind]; [|discriminate].
    intros Hrest. apply IH in Hrest as [Hk Hf].
    apply draw_pixel_frame in Hd as [Hk1 Hf1]. split; congruence.
Qed.

Lemma draw_lines_frame (V : list Z) (X : Z) (rows : list Z) :
  forall (u : UI) (y : Z) (erase : bool) (u' : UI) (erase' : bool),
    draw_lines rows u V X y erase = Ok (u', erase') ->
    keyboard u' = keyboard u /\ flips u' = flips u.
Proof.
  induction rows as [|line rows IH]; intros u y erase u' erase';
    cbn [draw_lines].
  - intros [= <- _]. now split.
  - destruct (getitem V X) as [x|e]; cbn [bind]; [|discriminate].
    destruct (draw_line 8 u x y line erase) as [[u1 e1]|e] eqn:Hline;
      cbn [bind]; [|discriminate].
    intros Hrest. apply IH in Hrest as [Hk Hf].
    apply draw_line_frame in Hline as [Hk1 Hf1]. split; congruence.
Qed.

(** No cycle writes the sound timer or the keys; every successful cycle
    counts one more cycle and prints nothing or exactly one "unkown
    opcode" line naming the instruction it recorded. *)
Theorem emulate_cycle_frame env c c' :
  emulate_cycle env c = Ok c' ->
  sound_timer c' = sound_timer c /\
  keyboard (ui c') = keyboard (ui c) /\
  n c' = n c + 1 /\
  (stdout c' = stdout c \/
   stdout c' = stdout c ++ [unkown_opcode (opcode c')]).
Proof.
  intros E. unfold emulate_cycle, alu, misc in E.
  cbn [V I memory pc stack ui keyboard buffer flips
       set_n set_pc set_opcode set_I set_V set_stack set_memory
       set_delay_timer set_ui log_error print clear_screen update] in E.
  repeat cycle_case E;
    repeat match goal with
           | H : draw_lines _ _ _ _ _ _ = Ok _ |- _ =>
               apply draw_lines_frame in H; destruct H
           end;
    cbn; (split; [|split; [|split]]);
    first [reflexivity | assumption | now left | now right].
Qed.

(** Only the BCD opcode (FX33) and the register dump (FX55) write the
    memory: any other instruction that succeeds leaves every cell as it
    was. *)
Theorem memory_written_only_by_FX33_FX55 env c c' AX YD :
  fetched c AX YD -> emulate_cycle env c = Ok c' ->
  ~ (Z.shiftr (Z.land AX 0xF0) 4 = 0xF /\ (YD = 0x33 \/ YD = 0x55)) ->
  memory c' = memory c.
Proof.
  intros [H1 H2] E Hnot. unfold emulate_cycle in E. cbn [pc set_n] in E.
  rewrite H1 in E. cbn [bind] in E. rewrite H2 in E. cbn [bind] in E.
  set (A := Z.shiftr (Z.land AX 0xF0) 4) in *.
  unfold alu, misc in E.
  cbn [V I memory pc stack ui keyboard buffer flips
       set_n set_pc set_opcode set_I set_V set_stack set_memory
       set_delay_timer set_ui log_error print clear_screen update] in E.
  repeat cycle_case E; try reflexivity;
    exfalso; apply Hnot;
    repeat match goal with
           | H : (_ =? _) = true |- _ => apply Z.eqb_eq in H
           end;
    (split; [assumption | lia]).
Qed.

(** ** Input events *)

Lemma keys_index_range (keys : list Z) (k i : Z) :
  keys_index keys k = Some i ->
  0 <= i < Z.of_nat (length keys) /\ keys !! Z.to_nat i = Some k.
Proof.
  revert i. induction keys as [|k' keys IH]; intros i; cbn [keys_index].
  - discriminate.
  - destruct (Z.eqb_spec k' k) as [->|Hne].
    + intros [= <-]. cbn. split; [lia | reflexivity].
    + destruct (keys_index keys k) as [j|]; [|discriminate].
      intros [= <-]. destruct (IH j eq_refl) as [Hj Hk].
      cbn [length]. split; [lia|].
      replace (Z.to_nat (j + 1)) with (S (Z.to_nat j)) by lia. exact Hk.
Qed.

(** A batch is handled up to its first mapped key-down (or escape): once a
    prefix of the events makes the call return a key index, whatever
    follows in the batch is never looked at; the index returned is that of
    a mapped key, the key is then marked down, and nothing but the key
    states has changed. *)
Theorem handle_input_event_returns_first_key_down
    (K_ESCAPE : Z) (keys : list Z) (events rest : list event)
    (u u' : UI) (i : Z) :
  handle_input_event K_ESCAPE keys events u = Returned u' (Some i) ->
  handle_input_event K_ESCAPE keys (events ++ rest) u = Returned u' (Some i) /\
  0 <= i < Z.of_nat (length keys) /\
  getitem (keyboard u') i = Ok true /\
  length (keyboard u') = length (keyboard u) /\
  buffer u' = buffer u /\ flips u' = flips u.
Proof.
  revert u. induction events as [|e events IH]; intros u;
    cbn [handle_input_event app].
  - discriminate.
  - destruct (type e);
      try (destruct (key e =? K_ESCAPE); [discriminate|]);
      try (destruct (keys_index keys (key e)) as [j|] eqn:Hj);
      try (destruct (setitem (keyboard u) j _) as [kb|x] eqn:Hset;
           [|discriminate]);
      try apply IH.
    + intros [= <- <-]. cbn [keyboard buffer flips].
      destruct (keys_index_range _ _ _ Hj) as [Hjr _].
      unfold setitem in Hset.
      destruct (py_index (keyboard u) j) as [a|x] eqn:Ha;
        cbn [bind] in Hset; [|discriminate].
      injection Hset as <-.
      unfold py_index in Ha.
      destruct (Z.ltb_spec j 0); [lia|].
      destruct (_ || _) eqn:Hin; [discriminate|]. injection Ha as <-.
      apply orb_false_elim in Hin as [_ Hin]. apply Z.leb_gt in Hin.
      repeat split; try lia.
      * apply getitem_lookup; [lia|]. apply list_lookup_insert_eq. lia.
      * now rewrite length_insert.
    + intros Hrest. destruct (IH _ Hrest) as (H1 & H2 & H3 & H4 & H5 & H6).
      cbn [keyboard buffer flips] in *.
      unfold setitem in Hset.
      destruct (py_index (keyboard u) j) as [a|x]; cbn [bind] in Hset;
        [|discriminate].
      injection Hset as <-. rewrite length_insert in H4.
      repeat split; assumption || lia.
Qed.

(** Handling a batch in two parts: the second part is handled from the
    state the first leaves, unless the first part already returned a key
    index, exited or failed, and then the second part is dropped. *)
Theorem handle_input_event_app
    (K_ESCAPE : Z) (keys : list Z) (events rest : list event) (u : UI) :
  handle_input_event K_ESCAPE keys (events ++ rest) u =
  match handle_input_event K_ESCAPE keys events u with
  | Returned u' None => handle_input_event K_ESCAPE keys rest u'
  | r => r
  end.
Proof.
  revert u. induction events as [|e events IH]; intros u;
    cbn [handle_input_event app].
  - reflexivity.
  - destruct (type e);
      try (destruct (key e =? K_ESCAPE); [reflexivity|]);
      try (destruct (keys_index keys (key e)) as [j|]);
      try (destruct (setitem (keyboard u) j _) as [kb|x]);
      try reflexivity; apply IH.
Qed.

(** ** The further properties on concrete machines *)

Ltac ground :=
  lazymatch goal with
  | |- wf_V _ => apply wf_Vb_true; vm_compute; reflexivity
  | |- wf_state _ => apply wf_stateb_true; vm_compute; reflexivity
  | |- wf_ui _ => split; vm_compute; [reflexivity | repeat constructor]
  | |- fetched _ _ _ => split; vm_compute; reflexivity
  | |- _ = _ => vm_compute; reflexivity
  | |- _ \/ _ => first [left; ground | right; ground]
  | |- _ =>
      first [ lia
            | vm_compute; first [reflexivity | intro; discriminate]
            | split; vm_compute; first [reflexivity | intro; discriminate] ]
  end.

Lemma fetch_past_memory_example :
  emulate_cycle env0 (set_pc 0xFFF (boot [])) = Raise IndexError.
Proof.
  apply fetch_past_memory_raises; ground.
Defined.

Lemma jump_1NNN_example :
  pc_after env0 (boot [x12; x34]) = Ok 0x234.
Proof.
  destruct (jump_1NNN_sets_pc env0 (boot [x12; x34]) 2 0x34
              ltac:(ground) ltac:(ground) ltac:(ground)) as [E _].
  unfold pc_after. rewrite E. reflexivity.
Defined.

Lemma call_then_return_example :
  exists c2,
    cycles 2 env0 (boot [x22; x04; x00; x00; x00; xee]) = Ok c2 /\
    pc c2 = 0x202 /\ stack c2 = [].
Proof.
  destruct (call_2NNN_then_return_00EE env0
              (boot [x22; x04; x00; x00; x00; xee]) 2 4
              ltac:(ground) ltac:(ground) ltac:(ground)) as [E1 Hret].
  destruct (Hret ltac:(ground)) as (c2 & E2 & Hpc & Hst & _).
  exists c2. cbn [cycles]. rewrite E1. cbn [bind]. rewrite E2. cbn [bind].
  split; [reflexivity|]. rewrite Hpc, Hst. split; vm_compute; reflexivity.
Defined.

Lemma return_empty_stack_example :
  emulate_cycle env0 (boot [x00; xee]) = Raise IndexError.
Proof.
  apply return_00EE_empty_stack_raises; ground.
Defined.

Lemma unknown_opcode_example :
  stdout_after env0 (boot [x80; x18])
    = Ok (stdout (boot [x80; x18]) ++ [unkown_opcode 0x8018]) /\
  pc_after env0 (boot [x80; x18]) = Ok 0x202.
Proof.
  pose proof (unknown_opcode_is_logged env0 (boot [x80; x18]) 8 0 0x18
                ltac:(ground) ltac:(ground)
                ltac:(right; left; split; [reflexivity | left; ground])
                ltac:(ground)) as E.
  unfold stdout_after, pc_after. rewrite E. cbn [bind].
  split; vm_compute; reflexivity.
Defined.

Lemma logic_example :
  reg_after env0 (alu_machine x11 0x0F 0xF0) 0 = Ok 0xFF /\
  reg_after env0 (alu_machine x13 0xFF 0x0F) 0 = Ok 0xF0.
Proof.
  destruct (logic_8XY0_to_8XY3 env0 (alu_machine x11 0x0F 0xF0)
              0 1 1 0x0F 0xF0 ltac:(ground) ltac:(ground) ltac:(ground)
              ltac:(ground) ltac:(ground) ltac:(ground) ltac:(ground))
    as [E1 _].
  destruct (logic_8XY0_to_8XY3 env0 (alu_machine x13 0xFF 0x0F)
              0 1 3 0xFF 0x0F ltac:(ground) ltac:(ground) ltac:(ground)
              ltac:(ground) ltac:(ground) ltac:(ground) ltac:(ground))
    as [E2 _].
  unfold reg_after. rewrite E1, E2. cbn [bind].
  split; vm_compute; reflexivity.
Defined.

Lemma add_immediate_example :
  reg_after env0 (machine [x70; x0a] [(0%nat, 250)]) 0 = Ok 4 /\
  reg_after env0 (machine [x70; x0a] [(0%nat, 250)]) 0xF = Ok 0.
Proof.
  pose proof (add_immediate_7XNN_wraps env0
                (machine [x70; x0a] [(0%nat, 250)]) 0 0x0A 250
                ltac:(ground) ltac:(ground) ltac:(ground) ltac:(ground)
                ltac:(ground)) as E.
  unfold reg_after. rewrite E. cbn [bind].
  split; vm_compute; reflexivity.
Defined.

Lemma shl_example :
  reg_after env0 (machine [x80; x1e] [(0%nat, 0x81)]) 0 = Ok 0x02 /\
  reg_after env0 (machine [x80; x1e] [(0%nat, 0x81)]) 0xF = Ok 1 /\
  reg_after env0 (machine [x8f; x0e] [(15%nat, 0x81)]) 0xF = Ok 2.
Proof.
  destruct (shl_8XYE_top_bit env0 (machine [x80; x1e] [(0%nat, 0x81)])
              0 1 0x81 ltac:(ground) ltac:(ground) ltac:(ground)
              ltac:(ground) ltac:(ground)) as [E1 _].
  destruct (shl_8XYE_top_bit env0 (machine [x8f; x0e] [(15%nat, 0x81)])
              15 0 0x81 ltac:(ground) ltac:(ground) ltac:(ground)
              ltac:(ground) ltac:(ground)) as [E2 _].
  unfold reg_after. rewrite E1, E2. cbn [bind].
  split; [|split]; vm_compute; reflexivity.
Defined.

Lemma add_to_I_example :
  I_after env0 (set_I 0xFFF (machine [xf0; x1e] [(0%nat, 0xFF)]))
    = Ok 0x10FE /\
  reg_after env0 (set_I 0xFFF (machine [xf0; x1e] [(0%nat, 0xFF)])) 0xF
    = Ok 1.
Proof.
  pose proof (add_to_I_FX1E env0
                (set_I 0xFFF (machine [xf0; x1e] [(0%nat, 0xFF)])) 0 0xFF
                ltac:(ground) ltac:(ground) ltac:(ground) ltac:(ground)) as E.
  cbv zeta in E. unfold I_after, reg_after. rewrite E. cbn [bind].
  split; vm_compute; reflexivity.
Defined.

Lemma random_example :
  reg_after (mkEnv 0xAB 0%Q) (boot [xc0; x0f]) 0 = Ok 0x0B.
Proof.
  destruct (random_CXNN_masked (mkEnv 0xAB 0%Q) (boot [xc0; x0f]) 0 0x0F
              ltac:(ground) ltac:(ground) ltac:(ground) ltac:(ground))
    as [E _].
  unfold reg_after. rewrite E. cbn [bind]. vm_compute. reflexivity.
Defined.

Lemma reg_dump_example :
  cells_after env0
    (set_I 0x300 (machine [xf2; x55] [(0%nat, 7); (1%nat, 8); (2%nat, 9)]))
    0x300 = Ok [7; 8; 9].
Proof.
  destruct (reg_dump_FX55_copies env0
              (set_I 0x300
                 (machine [xf2; x55] [(0%nat, 7); (1%nat, 8); (2%nat, 9)])) 2
              ltac:(ground) ltac:(ground) ltac:(ground) ltac:(ground)
              ltac:(ground)) as (mem' & E & Hlen & Hin & _).
  unfold cells_after. rewrite E. cbn [bind memory set_memory].
  pose proof (Hin 0 ltac:(lia)) as H0. pose proof (Hin 1 ltac:(lia)) as H1.
  pose proof (Hin 2 ltac:(lia)) as H2.
  apply getitem_Ok_inv in H0, H1, H2; try ground.
  f_equal. apply list_eq. intros [|[|[|a]]].
  - unfold py_slice, slice_bound. rewrite Hlen.
    rewrite lookup_take_lt, lookup_drop by (vm_compute; lia). exact H0.
  - unfold py_slice, slice_bound. rewrite Hlen.
    rewrite lookup_take_lt, lookup_drop by (vm_compute; lia). exact H1.
  - unfold py_slice, slice_bound. rewrite Hlen.
    rewrite lookup_take_lt, lookup_drop by (vm_compute; lia). exact H2.
  - unfold py_slice, slice_bound. rewrite Hlen.
    rewrite lookup_take_ge by (vm_compute; lia). reflexivity.
Defined.

Lemma bytesb_true (l : list Z) : bytesb l = true -> Forall byte_val l.
Proof.
  unfold bytesb. rewrite forallb_forall. intros H.
  apply Forall_forall. intros v Hv. apply list_elem_of_In, H in Hv.
  unfold byte_val. lia.
Qed.

Lemma reg_load_example :
  reg_after env0 (machine [xf1; x65] []) 0 = Ok 0xF0 /\
  reg_after env0 (machine [xf1; x65] []) 1 = Ok 0x90 /\
  reg_after env0 (machine [xf1; x65] []) 2 = Ok 0.
Proof.
  destruct (reg_load_FX65_copies env0 (machine [xf1; x65] []) 1
              ltac:(ground)
              ltac:(apply bytesb_true; vm_compute; reflexivity)
              ltac:(ground) ltac:(ground) ltac:(ground) ltac:(ground))
    as (V' & E & _ & Hin & Hout).
  unfold reg_after. rewrite E. cbn [bind V set_V].
  rewrite (Hin 0), (Hin 1), (Hout 2) by lia.
  split; [|split]; vm_compute; reflexivity.
Defined.

Lemma reg_round_trip_example :
  exists c2,
    cycles 2 env0
      (set_I 0x300 (machine [xf2; x55; xf2; x65]
                            [(0%nat, 7); (1%nat, 8); (2%nat, 9)])) = Ok c2 /\
    V c2 = [7; 8; 9; 0; 0; 0; 0; 0; 0; 0; 0; 0; 0; 0; 0; 0] /\
    I c2 = 0x300.
Proof.
  set (m := set_I 0x300 (machine [xf2; x55; xf2; x65]
                                 [(0%nat, 7); (1%nat, 8); (2%nat, 9)])).
  assert (E1 : emulate_cycle env0 m = Ok (after env0 m)) by ground.
  destruct (reg_dump_then_load_round_trip env0 m 2 (after env0 m)
              ltac:(ground) ltac:(ground) ltac:(ground) ltac:(ground)
              ltac:(ground) E1 ltac:(ground)) as (c2 & E2 & HV & HI & _).
  exists c2. cbn [cycles]. rewrite E1. cbn [bind]. rewrite E2. cbn [bind].
  split; [reflexivity|]. rewrite HV, HI. split; vm_compute; reflexivity.
Defined.

Lemma load_rom_contents_example :
  getitem (memory (boot [xf0; x33])) 0x200 = Ok 0xF0 /\
  getitem (memory (boot [xf0; x33])) 0x201 = Ok 0x33 /\
  memory (boot [xf0; x33]) !! 0%nat = Some 0xF0.
Proof.
  destruct (load_rom_contents [xf0; x33] (chip8_init ui_init)
              (boot [xf0; x33]) ltac:(ground) ltac:(ground))
    as (_ & _ & _ & Hin & Hout).
  split; [exact (Hin 0%nat xf0 eq_refl)|].
  split; [exact (Hin 1%nat x33 eq_refl)|].
  rewrite Hout by (vm_compute; left; reflexivity). reflexivity.
Defined.

Lemma key_skip_example :
  pc_after env0 (machine [xe0; xa1] [(0%nat, 3)]) = Ok 0x204 /\
  pc_after env0 (machine [xe0; x9e] [(0%nat, 3)]) = Ok 0x202.
Proof.
  destruct (key_skip_EX9E_EXA1 env0 (machine [xe0; xa1] [(0%nat, 3)])
              0 0xA1 3 false ltac:(ground) ltac:(ground) ltac:(ground)
              ltac:(ground) ltac:(ground)) as (c1 & E1 & P1 & _).
  destruct (key_skip_EX9E_EXA1 env0 (machine [xe0; x9e] [(0%nat, 3)])
              0 0x9E 3 false ltac:(ground) ltac:(ground) ltac:(ground)
              ltac:(ground) ltac:(ground)) as (c2 & E2 & P2 & _).
  unfold pc_after. rewrite E1, E2. cbn [bind]. rewrite P1, P2.
  split; vm_compute; reflexivity.
Defined.

Lemma key_skip_bad_index_example :
  emulate_cycle env0 (machine [xe0; x9e] [(0%nat, 16)]) = Raise IndexError.
Proof.
  apply (key_skip_bad_index_raises env0 _ 0 0x9E 16); ground.
Defined.

Lemma clear_example :
  exists c',
    cycles 2 env0 (set_I 0x204 (boot [xd0; x01; x00; xe0; xff])) = Ok c' /\
    pixel (ui c') 3 0 = false.
Proof.
  set (m := set_I 0x204 (boot [xd0; x01; x00; xe0; xff])).
  assert (E1 : emulate_cycle env0 m = Ok (after env0 m)) by ground.
  destruct (clear_00E0_unsets_all env0 (after env0 m) ltac:(ground))
    as (E2 & Hpix & _).
  eexists. cbn [cycles]. rewrite E1. cbn [bind]. rewrite E2. cbn [bind].
  split; [reflexivity|]. cbn [ui set_ui]. apply Hpix.
Defined.

Lemma draw_twice_example :
  exists c2,
    cycles 2 env0 draw_machine = Ok c2 /\
    pixel (ui (after env0 draw_machine)) 3 0 = true /\
    pixel (ui c2) 3 0 = false.
Proof.
  assert (E1 : emulate_cycle env0 draw_machine = Ok (after env0 draw_machine))
    by ground.
  destruct (draw_DXYN_twice_restores env0 draw_machine 0 0 1 0 0
              (after env0 draw_machine)
              ltac:(ground) ltac:(ground) ltac:(ground) ltac:(ground)
              ltac:(ground) ltac:(ground) ltac:(ground) ltac:(ground)
              E1 ltac:(ground)) as (c2 & E2 & Hpix).
  exists c2. cbn [cycles]. rewrite E1. cbn [bind]. rewrite E2. cbn [bind].
  split; [reflexivity|]. split; [vm_compute; reflexivity|].
  rewrite Hpix by lia. vm_compute. reflexivity.
Defined.

Lemma draw_height_0_example :
  reg_after env0 (machine [xd0; x10] [(15%nat, 1)]) 0xF = Ok 0 /\
  lit_pixels (ui (after env0 (machine [xd0; x10] [(15%nat, 1)]))) = [].
Proof.
  destruct (draw_DXY0_draws_nothing env0 (machine [xd0; x10] [(15%nat, 1)])
              0 1 0 ltac:(ground) ltac:(ground) ltac:(ground) ltac:(ground)
              ltac:(ground)) as [E _].
  unfold reg_after, after. rewrite E. cbn [bind].
  split; vm_compute; reflexivity.
Defined.

Lemma bcd_past_memory_example :
  emulate_cycle env0 (set_I 0xFFE (machine [xf0; x33] [(0%nat, 123)]))
    = Raise IndexError.
Proof.
  apply (bcd_FX33_past_memory_raises env0 _ 0 123); ground.
Defined.

Lemma emulate_cycles_wf_state_example :
  exists c',
    emulate_cycles [mkEnv 0xAB 0%Q; mkEnv 0x12 (1 # 2)%Q; mkEnv 0 1%Q]
                   random_machine = Ok c' /\
    wf_state c' /\
    getitem (V c') 0 = Ok 0xAB /\ getitem (V c') 1 = Ok 0x12.
Proof.
  destruct (emulate_cycles
              [mkEnv 0xAB 0%Q; mkEnv 0x12 (1 # 2)%Q; mkEnv 0 1%Q]
              random_machine) as [c'|e] eqn:E.
  - exists c'. split; [reflexivity|]. split.
    + apply (emulate_cycles_keep_wf_state
               [mkEnv 0xAB 0%Q; mkEnv 0x12 (1 # 2)%Q; mkEnv 0 1%Q]
               random_machine c'); [ground | exact E].
    + vm_compute in E. injection E as <-.
      split; vm_compute; reflexivity.
  - exfalso. vm_compute in E. discriminate E.
Defined.

Lemma boot_wf_state_example : wf_state (boot [xf0; x33]).
Proof.
  apply (proj2 init_and_load_rom_wf_state [xf0; x33] (chip8_init ui_init)).
  - apply (proj1 init_and_load_rom_wf_state).
  - vm_compute. reflexivity.
Defined.

Lemma frame_example :
  sound_timer (after env0 sound_machine) = 0 /\
  n (after env0 sound_machine) = 1.
Proof.
  destruct (emulate_cycle_frame env0 sound_machine (after env0 sound_machine)
              ltac:(ground)) as (Hs & _ & Hn & _).
  rewrite Hs, Hn. split; vm_compute; reflexivity.
Defined.

Lemma memory_not_written_example :
  memory (after env0 (alu_machine x14 200 100))
  = memory (alu_machine x14 200 100).
Proof.
  apply (memory_written_only_by_FX33_FX55 env0 _ _ 0x80 0x14);
    [ground | ground |].
  intros [HA _]. vm_compute in HA. discriminate HA.
Defined.

Lemma handle_input_event_example :
  handle_input_event pygame_K_ESCAPE pygame_keys
    [mkEvent OTHER 0; mkEvent KEYUP 113; mkEvent KEYDOWN 119;
     mkEvent KEYDOWN 27] ui_init
  = handle_input_event pygame_K_ESCAPE pygame_keys
      [mkEvent OTHER 0; mkEvent KEYUP 113; mkEvent KEYDOWN 119] ui_init /\
  key_after (handle_input_event pygame_K_ESCAPE pygame_keys
               [mkEvent OTHER 0; mkEvent KEYUP 113; mkEvent KEYDOWN 119]
               ui_init) 5 = Ok true.
Proof.
  set (evs := [mkEvent OTHER 0; mkEvent KEYUP 113; mkEvent KEYDOWN 119]).
  assert (E : handle_input_event pygame_K_ESCAPE pygame_keys evs ui_init
              = Returned (mkUI (buffer ui_init)
                               (<[5%nat := true]> (keyboard ui_init))
                               (flips ui_init)) (Some 5))
    by (vm_compute; reflexivity).
  destruct (handle_input_event_returns_first_key_down pygame_K_ESCAPE
              pygame_keys evs [mkEvent KEYDOWN 27] ui_init _ 5 E)
    as (Happ & _ & Hkey & _).
  split.
  - change ([mkEvent OTHER 0; mkEvent KEYUP 113; mkEvent KEYDOWN 119;
             mkEvent KEYDOWN 27]) with (evs ++ [mkEvent KEYDOWN 27]).
    now rewrite Happ, E.
  - rewrite E. exact Hkey.
Defined.
